(** * OOP Text Battle: characters, weapons and health bars

    A shallow embedding of [character.py] and [healthbar.py].

    Python objects live in a store and are named by references, so that
    aliasing (a weapon shared by several characters, the cycle between a
    character and its health bar) is modelled as the interpreter has it.
    Python integers are unbounded ([Z]); Python floats are IEEE-754 binary64,
    taken from the Standard Library's executable specification [SpecFloat]. *)

From Stdlib Require Import ZArith Lia Ascii String.
From Stdlib Require Import Floats.SpecFloat.
From stdpp Require Import base option list gmap strings pretty.

Open Scope Z_scope.

(** ** Exceptions and results *)

Inductive exn : Type :=
  | AttributeError
  | ZeroDivisionError
  | OverflowError
  | ValueError
  | KeyError.

Inductive result (A : Type) : Type :=
  | Ok (a : A)
  | Raise (e : exn).
Arguments Ok {A} a.
Arguments Raise {A} e.

(** ** Python floats (binary64) *)

Module PyFloat.

Definition prec : Z := 53.
Definition emax : Z := 1024.

(** An integer as an (unrounded) floating-point datum: mantissa [|z|],
    exponent 0. *)
Definition exact_int (z : Z) : spec_float :=
  match z with
  | Z0 => S754_zero false
  | Zpos p => S754_finite false p 0
  | Zneg p => S754_finite true p 0
  end.

(** [a / b] on two ints. CPython rounds the exact quotient of the two
    integers once, whatever their size, so the division is taken on the
    unrounded operands. [ZeroDivisionError] on a zero divisor,
    [OverflowError] when the quotient is too large for a float. *)
Definition int_truediv (a b : Z) : result spec_float :=
  if Z.eqb b 0 then Raise ZeroDivisionError
  else match SFdiv prec emax (exact_int a) (exact_int b) with
       | S754_infinity _ => Raise OverflowError
       | q => Ok q
       end.

(** The implicit conversion of an int operand to float: round to nearest,
    ties to even; [OverflowError] when the int is too large. *)
Definition int_to_float (n : Z) : result spec_float :=
  match binary_normalize prec emax n 0 false with
  | S754_infinity _ => Raise OverflowError
  | x => Ok x
  end.

(** [x * n] for a float [x] and an int [n]: [n] is converted, and the
    product is rounded to nearest even (it may be an infinity). *)
Definition float_mul_int (x : spec_float) (n : Z) : result spec_float :=
  match int_to_float n with
  | Raise e => Raise e
  | Ok y => Ok (SFmul prec emax x y)
  end.

(** Nearest integer to [m / 2^k], ties to the even neighbour. *)
Definition round_half_even (m k : Z) : Z :=
  let q := m / 2 ^ k in
  let r := m mod 2 ^ k in
  match 2 * r ?= 2 ^ k with
  | Lt => q
  | Gt => q + 1
  | Eq => if Z.even q then q else q + 1
  end.

(** [round(x)] with one argument: float to int, half to even;
    [OverflowError] on an infinity, [ValueError] on a NaN. *)
Definition round (x : spec_float) : result Z :=
  match x with
  | S754_zero _ => Ok 0
  | S754_infinity _ => Raise OverflowError
  | S754_nan => Raise ValueError
  | S754_finite s m e =>
      Ok (cond_Zopp s
            (match e with
             | Zneg k => round_half_even (Zpos m) (Zpos k)
             | _ => Zpos m * 2 ^ e
             end))
  end.

Definition one : spec_float := S754_finite false 4503599627370496 (-52).

End PyFloat.

(** ** Objects and the store *)

(** References to objects. *)
Abbreviation loc := positive.

(** Modelled from the spec: [weapon.py] is not part of the sources. A weapon
    is a record of a name and a damage value, built once and shared by
    reference. *)
Module Weapon.
Record t : Type := mk { name : string; damage : Z }.
End Weapon.

Module HealthBar.
Record t : Type := mk {
  entity : loc;
  length : Z;
  max_value : Z;
  current_value : Z;
  is_colored : bool;
  color : string
}.

Definition set_current_value (v : Z) (b : t) : t :=
  mk (entity b) (length b) (max_value b) v (is_colored b) (color b).
End HealthBar.

Module Character.
(** [default_weapon] and [health_bar] are attributes that only the
    subclasses set: on an object that lacks them they are [None], and
    reading them raises [AttributeError]. *)
Record t : Type := mk {
  name : string;
  health : Z;
  health_max : Z;
  weapon : loc;
  default_weapon : option loc;
  health_bar : option loc
}.

Definition set_health (v : Z) (c : t) : t :=
  mk (name c) v (health_max c) (weapon c) (default_weapon c) (health_bar c).
Definition set_weapon (wp : loc) (c : t) : t :=
  mk (name c) (health c) (health_max c) wp (default_weapon c) (health_bar c).
Definition set_default_weapon (wp : loc) (c : t) : t :=
  mk (name c) (health c) (health_max c) (weapon c) (Some wp) (health_bar c).
Definition set_health_bar (hb : loc) (c : t) : t :=
  mk (name c) (health c) (health_max c) (weapon c) (default_weapon c) (Some hb).
End Character.

(** The interpreter state: one store per class, and the lines printed so
    far. *)
Record World : Type := mkWorld {
  weapons : gmap loc Weapon.t;
  characters : gmap loc Character.t;
  bars : gmap loc HealthBar.t;
  stdout : list string
}.

(** ** Computations: state that survives an exception *)

Definition Py (A : Type) : Type := World -> World * result A.

Definition ret {A} (a : A) : Py A := fun w => (w, Ok a).

Definition bind {A B} (m : Py A) (k : A -> Py B) : Py B :=
  fun w =>
    match m w with
    | (w', Ok a) => k a w'
    | (w', Raise e) => (w', Raise e)
    end.

Notation "'let*' x ':=' m 'in' k" := (bind m (fun x => k))
  (at level 10, x name, m at level 100, k at level 200).
Notation "m ';;' k" := (bind m (fun _ => k))
  (at level 100, k at level 200, right associativity).

Definition lift {A} (r : result A) : Py A := fun w => (w, r).

Definition print (line : string) : Py unit :=
  fun w => (mkWorld (weapons w) (characters w) (bars w) (stdout w ++ [line]), Ok tt).

(** Attribute access on an object of each class. A reference is read in
    the store of the class its place expects: [weapon] and [default_weapon]
    hold weapon references. A reference outside that store stands for an
    object that has none of the attributes read there, such as [None]; an
    object of another class held in such a place is outside the model. *)
Definition get_weapon_obj (wp : loc) : Py Weapon.t :=
  fun w => (w, from_option Ok (Raise AttributeError) (weapons w !! wp)).

Definition get_character (c : loc) : Py Character.t :=
  fun w => (w, from_option Ok (Raise AttributeError) (characters w !! c)).

Definition get_bar (hb : loc) : Py HealthBar.t :=
  fun w => (w, from_option Ok (Raise AttributeError) (bars w !! hb)).

Definition get_attr {A} (a : option A) : Py A :=
  lift (from_option Ok (Raise AttributeError) a).

Definition update_character (f : Character.t -> Character.t) (c : loc) : Py unit :=
  fun w => (mkWorld (weapons w) (alter f c (characters w)) (bars w) (stdout w), Ok tt).

Definition update_bar (f : HealthBar.t -> HealthBar.t) (hb : loc) : Py unit :=
  fun w => (mkWorld (weapons w) (characters w) (alter f hb (bars w)) (stdout w), Ok tt).

Definition new_character (c : Character.t) : Py loc :=
  fun w =>
    let l := fresh (dom (characters w)) in
    (mkWorld (weapons w) (<[l := c]> (characters w)) (bars w) (stdout w), Ok l).

Definition new_bar (b : HealthBar.t) : Py loc :=
  fun w =>
    let l := fresh (dom (bars w)) in
    (mkWorld (weapons w) (characters w) (<[l := b]> (bars w)) (stdout w), Ok l).

(** ** healthbar.py *)

Definition esc : string := String "027"%char EmptyString.

Definition symbol_remaining : string := "█".
Definition symbol_lost : string := "░".
Definition barrier : string := "│".

(** A dict display: the pairs are stored in order, a later key replacing an
    earlier one. *)
Definition dict_of (items : list (string * string)) : gmap string string :=
  foldl (fun m kv => <[kv.1 := kv.2]> m) ∅ items.

Definition colors : gmap string string :=
  dict_of [
    ("red", esc +:+ "[91m");
    ("purple", esc +:+ "[95m");
    ("blue", esc +:+ "[94m");
    ("blue2", esc +:+ "[96m");
    ("blue3", esc +:+ "[94m");
    ("green", esc +:+ "[92m");
    ("green2", esc +:+ "[92m");
    ("yellow", esc +:+ "[93m");
    ("gray", esc +:+ "[90m");
    ("default", esc +:+ "[0m")
  ].

(** [d[key]]. *)
Definition subscript (d : gmap string string) (key : string) : result string :=
  from_option Ok (Raise KeyError) (d !! key).

(** [d.get(key) or d["default"]]: the right operand is evaluated only when
    the left one is [None] or the empty string. *)
Definition resolve_color (color : string) : result string :=
  match colors !! color with
  | Some (String a s) => Ok (String a s)
  | Some EmptyString | None => subscript colors "default"
  end.

Definition HealthBar_init (entity : loc) (length : Z) (is_colored : bool)
    (color : string) : Py loc :=
  let* e := get_character entity in
  let* c := lift (resolve_color color) in
  new_bar (HealthBar.mk entity length (Character.health_max e)
             (Character.health e) is_colored c).

Definition update (self : loc) : Py unit :=
  let* b := get_bar self in
  let* e := get_character (HealthBar.entity b) in
  update_bar (HealthBar.set_current_value (Character.health e)) self.

(** [sys.maxsize], the largest index ([Py_ssize_t]), on a 64-bit build. *)
Definition maxsize : Z := 2 ^ 63 - 1.

(** An int that fits an index. *)
Definition index_sized (n : Z) : bool :=
  (- maxsize - 1 <=? n) && (n <=? maxsize).

(** [len(s)]: the code points of a UTF-8 string are its bytes that are not
    continuation bytes (0x80 to 0xBF). *)
Definition is_continuation (a : ascii) : bool :=
  let n := Z.of_N (N_of_ascii a) in (128 <=? n) && (n <? 192).

Fixpoint py_len (s : string) : Z :=
  match s with
  | EmptyString => 0
  | String a s' => (if is_continuation a then 0 else 1) + py_len s'
  end.

(** [n] copies of [s] in a row; none when [n <= 0]. *)
Definition repeated (n : Z) (s : string) : string :=
  Nat.iter (Z.to_nat n) (fun acc => s +:+ acc) EmptyString.

(** [n * s] for an int [n] and a string [s]. The count is first converted
    to an index: [OverflowError] when it does not fit. A count below 1 gives
    the empty string. [OverflowError] again when the result would have more
    characters than an index can count. Running out of memory while the
    result is built is outside the model. *)
Definition str_repeat (n : Z) (s : string) : result string :=
  if negb (index_sized n) then Raise OverflowError
  else if n <? 1 then Ok EmptyString
  else if maxsize / n <? py_len s then Raise OverflowError
  else Ok (repeated n s).

(** The first two statements of [draw]: [(remaining_bars, lost_bars)]. *)
Definition glyph_counts (b : HealthBar.t) : result (Z * Z) :=
  match PyFloat.int_truediv (HealthBar.current_value b) (HealthBar.max_value b) with
  | Raise e => Raise e
  | Ok q =>
      match PyFloat.float_mul_int q (HealthBar.length b) with
      | Raise e => Raise e
      | Ok p =>
          match PyFloat.round p with
          | Raise e => Raise e
          | Ok remaining_bars => Ok (remaining_bars, HealthBar.length b - remaining_bars)
          end
      end
  end.

(** The line [draw] prints first. *)
Definition health_line (e : Character.t) : string :=
  Character.name e +:+ "'s Health: " +:+ pretty (Character.health e)
    +:+ "/" +:+ pretty (Character.health_max e).

(** The line [draw] prints second, for glyph counts that [str_repeat]
    accepts. *)
Definition bar_line (b : HealthBar.t) (remaining_bars lost_bars : Z)
    (reset : string) : string :=
  barrier
    +:+ (if HealthBar.is_colored b then HealthBar.color b else EmptyString)
    +:+ repeated remaining_bars symbol_remaining
    +:+ repeated lost_bars symbol_lost
    +:+ (if HealthBar.is_colored b then reset else EmptyString)
    +:+ barrier.

(** The second [print] evaluates its pieces from left to right, after the
    first line is out: the two glyph runs, then the reset code. *)
Definition draw (self : loc) : Py unit :=
  let* b := get_bar self in
  let* counts := lift (glyph_counts b) in
  let* e := get_character (HealthBar.entity b) in
  print (health_line e);;
  let* remaining := lift (str_repeat counts.1 symbol_remaining) in
  let* lost := lift (str_repeat counts.2 symbol_lost) in
  let* reset :=
    (if HealthBar.is_colored b then lift (subscript colors "default") else ret EmptyString) in
  print (barrier
           +:+ (if HealthBar.is_colored b then HealthBar.color b else EmptyString)
           +:+ remaining
           +:+ lost
           +:+ (if HealthBar.is_colored b then reset else EmptyString)
           +:+ barrier).

(** ** character.py *)

(** Modelled from the spec: [weapon.py] is not part of the sources. [fists]
    is the one shared default weapon, a fixed reference into the weapon
    store. *)
Definition fists : loc := 1%positive.

(** [Character.__init__]. *)
Definition Character_init (name : string) (health : Z) : Py loc :=
  new_character (Character.mk name health health fists None None).

Definition attack (self target : loc) : Py unit :=
  (* target.health -= self.weapon.damage *)
  let* t := get_character target in
  let* s := get_character self in
  let* wp := get_weapon_obj (Character.weapon s) in
  update_character
    (Character.set_health (Character.health t - Weapon.damage wp)) target;;
  (* target.health = max(target.health, 0) *)
  let* t := get_character target in
  update_character (Character.set_health (Z.max (Character.health t) 0)) target;;
  (* target.health_bar.update() *)
  let* t := get_character target in
  let* hb := get_attr (Character.health_bar t) in
  update hb;;
  (* print(...) *)
  let* s := get_character self in
  let* t := get_character target in
  let* wp := get_weapon_obj (Character.weapon s) in
  print (Character.name s +:+ " attacks " +:+ Character.name t +:+ " with "
           +:+ Weapon.name wp +:+ " for " +:+ pretty (Weapon.damage wp)
           +:+ " damage.").

(** [Hero.__init__]. *)
Definition Hero_init (name : string) (health : Z) : Py loc :=
  let* self := Character_init name health in
  let* s := get_character self in
  update_character (Character.set_default_weapon (Character.weapon s)) self;;
  let* hb := HealthBar_init self 20 true "green" in
  update_character (Character.set_health_bar hb) self;;
  ret self.

Definition equip (self weapon : loc) : Py unit :=
  update_character (Character.set_weapon weapon) self;;
  let* s := get_character self in
  let* wp := get_weapon_obj weapon in
  print (Character.name s +:+ " equipped " +:+ Weapon.name wp +:+ "!").

Definition drop (self : loc) : Py unit :=
  let* s := get_character self in
  let* wp := get_weapon_obj (Character.weapon s) in
  let dropped_weapon_name := Weapon.name wp in
  let* s := get_character self in
  let* dw := get_attr (Character.default_weapon s) in
  update_character (Character.set_weapon dw) self;;
  let* s := get_character self in
  print (Character.name s +:+ " dropped " +:+ dropped_weapon_name +:+ ".").

(** [Enemy.__init__]. *)
Definition Enemy_init (name : string) (health : Z) (weapon : loc) : Py loc :=
  let* self := Character_init name health in
  update_character (Character.set_weapon weapon) self;;
  let* hb := HealthBar_init self 20 true "red" in
  update_character (Character.set_health_bar hb) self;;
  ret self.

(** A sequence of [equip] calls on one hero. *)
Fixpoint equip_all (self : loc) (ws : list loc) : Py unit :=
  match ws with
  | [] => ret tt
  | wp :: ws' => equip self wp;; equip_all self ws'
  end.

(** A sequence of [attack] calls by one attacker on one target. *)
Fixpoint attack_times (n : nat) (self target : loc) : Py unit :=
  match n with
  | O => ret tt
  | S n' => attack self target;; attack_times n' self target
  end.

(** ** A concrete scene *)

(** Modelled from the spec: the weapons of the scenarios. The store holds
    [fists] (damage 5), a club (damage 5), a sword (damage 20), an axe
    (damage 15) and a weapon of negative damage. *)
Definition club : loc := 2%positive.
Definition sword : loc := 3%positive.
Definition potion : loc := 4%positive.
Definition axe : loc := 5%positive.

Definition armoury : World :=
  mkWorld
    (<[fists := Weapon.mk "Fists" 5]>
       (<[club := Weapon.mk "Club" 5]>
          (<[sword := Weapon.mk "Sword" 20]>
             (<[potion := Weapon.mk "Potion" (-5)]>
                (<[axe := Weapon.mk "Axe" 15]> ∅)))))
    ∅ ∅ [].

(** Hero "Aria" (health 100) and enemy "Goblin" (health 30, club). *)
Definition scene : World * result (loc * loc) :=
  (let* h := Hero_init "Aria" 100 in
   let* g := Enemy_init "Goblin" 30 club in
   ret (h, g)) armoury.

(** Hero "Aria" with health 10, and an enemy holding weapon [wp]. *)
Definition duel (wp : loc) : World :=
  ((Hero_init "Aria" 10;; Enemy_init "Goblin" 30 wp) armoury).1.

(** The scene with the goblin's health written to 7 behind its bar's back. *)
Definition stale : World :=
  (update_character (Character.set_health 7) 2 scene.1).1.

(** The scene after the hero has struck the goblin once. *)
Definition struck : World := (attack 1 2 scene.1).1.

Definition goblin : Character.t :=
  Character.mk "Goblin" 25 30 club None (Some 2%positive).

Definition goblin_bar : HealthBar.t :=
  HealthBar.mk 2 20 30 25 true (esc +:+ "[91m").

(** A bar one glyph wider than a binary64 mantissa can count. *)
Definition wide_bar : HealthBar.t :=
  HealthBar.mk 1 (2 ^ 53 + 1) 1 1 true (esc +:+ "[92m").

(** A character "Titan" (health 1) under a full bar of [2^63] glyphs, one
    more than an index can count. *)
Definition colossus : World :=
  ((let* c := Character_init "Titan" 1 in
    HealthBar_init c (2 ^ 63) true "green") armoury).1.

(** An empty bar far wider than any binary64 mantissa can count. *)
Definition vast_bar : HealthBar.t :=
  HealthBar.mk 2 (2 ^ 900 + 1) 30 0 true (esc +:+ "[91m").

(** A plain [Character] (reference 1) and a hero (reference 2). *)
Definition training : World :=
  ((Character_init "Dummy" 10;; Hero_init "Aria" 100) armoury).1.

(** A hero built with health 0. *)
Definition ghost_town : World := (Hero_init "Ghost" 0 armoury).1.

(** ** Vocabulary of the statements *)

(** The names of the palette. *)
Definition palette : list string :=
  ["red"; "purple"; "blue"; "blue2"; "blue3"; "green"; "green2"; "yellow";
   "gray"; "default"].

(** The line [attack] prints. *)
Definition attack_line (s t : Character.t) (wp : Weapon.t) : string :=
  Character.name s +:+ " attacks " +:+ Character.name t +:+ " with "
    +:+ Weapon.name wp +:+ " for " +:+ pretty (Weapon.damage wp) +:+ " damage.".

(** The states [attack] can end in, whether it returns or raises: the
    initial one, the one with the target's health written, or the one with
    also the bar's snapshot written and a line printed. *)
Inductive attack_post (w : World) (target : loc) : World -> Prop :=
  | post_untouched : attack_post w target w
  | post_health t v :
      characters w !! target = Some t ->
      attack_post w target
        (mkWorld (weapons w)
           (<[target := Character.set_health v t]> (characters w))
           (bars w) (stdout w))
  | post_bar t v hb b v' line :
      characters w !! target = Some t ->
      Character.health_bar t = Some hb ->
      bars w !! hb = Some b ->
      attack_post w target
        (mkWorld (weapons w)
           (<[target := Character.set_health v t]> (characters w))
           (<[hb := HealthBar.set_current_value v' b]> (bars w))
           (stdout w ++ [line])).

(** Character [c] carries the bar [hb], and [hb] observes [c]: what
    [Hero.__init__] and [Enemy.__init__] set up. *)
Definition observed (w : World) (c hb : loc) : Prop :=
  exists t b,
    characters w !! c = Some t /\
    Character.health_bar t = Some hb /\
    bars w !! hb = Some b /\
    HealthBar.entity b = c.

(** The colour reset that closes a coloured bar. *)
Definition reset_code (b : HealthBar.t) : string :=
  if HealthBar.is_colored b then esc +:+ "[0m" else EmptyString.

(** What [draw] prints when it returns. *)
Definition drawn (b : HealthBar.t) (e : Character.t) (counts : Z * Z)
  : list string :=
  [health_line e; bar_line b counts.1 counts.2 (reset_code b)].

(** A float that is zero or finite and below [2^K] in magnitude. *)
Definition bounded_by (K : Z) (x : spec_float) : Prop :=
  match x with
  | S754_zero _ => True
  | S754_finite _ m e => Zdigits2 (Zpos m) + e <= K
  | _ => False
  end.

(** A float [S754_finite false m e] that holds the integer [n] on a full
    53-bit mantissa. *)
Definition holds_int (n : Z) (m : positive) (e : Z) : Prop :=
  Zdigits2 (Zpos m) = 53 /\ -52 <= e <= 1 /\
  (e <= 0 -> Zpos m = n * 2 ^ (- e)) /\ (0 < e -> n = Zpos m * 2 ^ e).

(** [n] is the integer nearest to [m / 2^k]; when two integers are equally
    near, the even one. *)
Definition nearest_ties_even (m k n : Z) : Prop :=
  Z.abs (2 * m - 2 * n * 2 ^ k) <= 2 ^ k /\
  (Z.abs (2 * m - 2 * n * 2 ^ k) = 2 ^ k -> Z.even n = true).

(** [round(current_value / max_value * length)], in Python's arithmetic. *)
Definition round_ratio (current_value max_value length : Z) : result Z :=
  match PyFloat.int_truediv current_value max_value with
  | Raise e => Raise e
  | Ok q =>
      match PyFloat.float_mul_int q length with
      | Raise e => Raise e
      | Ok p => PyFloat.round p
      end
  end.

(** 1 when bits have been shifted out of the record, 0 when it is exact. *)
Definition excess (mrs : shr_record) : Z :=
  if shr_r mrs || shr_s mrs then 1 else 0.

(** The value a record stands for is at most [N] units of its last place. *)
Definition below (mrs : shr_record) (N : Z) : Prop :=
  0 <= shr_m mrs /\ shr_m mrs + excess mrs <= N.

(** A non-negative float of value at most 1. *)
Definition at_most_one (x : spec_float) : Prop :=
  match x with
  | S754_zero _ => True
  | S754_finite false m e => e <= 0 /\ Zpos m <= 2 ^ (- e)
  | _ => False
  end.

(** A non-negative float of value at most the integer [n]. *)
Definition at_most (n : Z) (x : spec_float) : Prop :=
  match x with
  | S754_zero _ => True
  | S754_finite false m e =>
      (0 <= e -> Zpos m * 2 ^ e <= n) /\ (e < 0 -> Zpos m <= n * 2 ^ (- e))
  | _ => False
  end.

(** * Properties *)

(** ** Sanity checks of the model *)

Example truediv_25_30 :
  PyFloat.int_truediv 25 30 = Ok (S754_finite false 7505999378950827 (-53)).
Proof. vm_compute. reflexivity. Qed.

Example round_2_5 : PyFloat.round (S754_finite false 5 (-1)) = Ok 2.
Proof. reflexivity. Qed.

Example round_3_5 : PyFloat.round (S754_finite false 7 (-1)) = Ok 4.
Proof. reflexivity. Qed.

Example scene_refs : scene.2 = Ok (1%positive, 2%positive).
Proof. vm_compute. reflexivity. Qed.

Example scene_attack :
  Character.health <$> characters ((attack 1 2 scene.1).1) !! 2%positive = Some 25.
Proof. vm_compute. reflexivity. Qed.

Example scene_draw :
  stdout ((attack 1 2;; draw 2) scene.1).1 =
    [ "Aria attacks Goblin with Fists for 5 damage.";
      "Goblin's Health: 25/30";
      "│" +:+ esc +:+ "[91m" +:+ "█████████████████░░░" +:+ esc +:+ "[0m" +:+ "│" ].
Proof. vm_compute. reflexivity. Qed.

(** ** Running computations *)

Lemma bind_get_character c x {B} (k : Character.t -> Py B) w :
  characters w !! c = Some x -> bind (get_character c) k w = k x w.
Proof. intros H. unfold bind, get_character. rewrite H. reflexivity. Qed.

Lemma bind_get_bar hb x {B} (k : HealthBar.t -> Py B) w :
  bars w !! hb = Some x -> bind (get_bar hb) k w = k x w.
Proof. intros H. unfold bind, get_bar. rewrite H. reflexivity. Qed.

Lemma bind_get_weapon_obj wp x {B} (k : Weapon.t -> Py B) w :
  weapons w !! wp = Some x -> bind (get_weapon_obj wp) k w = k x w.
Proof. intros H. unfold bind, get_weapon_obj. rewrite H. reflexivity. Qed.

Lemma bind_get_character_None c {B} (k : Character.t -> Py B) w :
  characters w !! c = None ->
  bind (get_character c) k w = (w, Raise AttributeError).
Proof. intros H. unfold bind, get_character. rewrite H. reflexivity. Qed.

Lemma bind_get_bar_None hb {B} (k : HealthBar.t -> Py B) w :
  bars w !! hb = None -> bind (get_bar hb) k w = (w, Raise AttributeError).
Proof. intros H. unfold bind, get_bar. rewrite H. reflexivity. Qed.

Lemma bind_get_weapon_obj_None wp {B} (k : Weapon.t -> Py B) w :
  weapons w !! wp = None ->
  bind (get_weapon_obj wp) k w = (w, Raise AttributeError).
Proof. intros H. unfold bind, get_weapon_obj. rewrite H. reflexivity. Qed.

Lemma bind_update_character f c {B} (k : unit -> Py B) w :
  bind (update_character f c) k w =
  k tt (mkWorld (weapons w) (alter f c (characters w)) (bars w) (stdout w)).
Proof. reflexivity. Qed.

Lemma bind_update_bar f hb {B} (k : unit -> Py B) w :
  bind (update_bar f hb) k w =
  k tt (mkWorld (weapons w) (characters w) (alter f hb (bars w)) (stdout w)).
Proof. reflexivity. Qed.

Lemma bind_print line {B} (k : unit -> Py B) w :
  bind (print line) k w =
  k tt (mkWorld (weapons w) (characters w) (bars w) (stdout w ++ [line])).
Proof. reflexivity. Qed.

Lemma bind_ret {A B} (a : A) (k : A -> Py B) w : bind (ret a) k w = k a w.
Proof. reflexivity. Qed.

Lemma bind_lift_Ok {A B} (a : A) (k : A -> Py B) w : bind (lift (Ok a)) k w = k a w.
Proof. reflexivity. Qed.

Lemma bind_lift_Raise {A B} (e : exn) (k : A -> Py B) w :
  bind (lift (Raise e)) k w = (w, Raise e).
Proof. reflexivity. Qed.

(** ** [HealthBar.update] *)

Lemma update_run w hb b e :
  bars w !! hb = Some b ->
  characters w !! HealthBar.entity b = Some e ->
  update hb w =
    (mkWorld (weapons w) (characters w)
       (<[hb := HealthBar.set_current_value (Character.health e) b]> (bars w))
       (stdout w), Ok tt).
Proof.
  intros Hb He. unfold update.
  rewrite (bind_get_bar _ _ _ _ Hb), (bind_get_character _ _ _ _ He).
  unfold update_bar. f_equal. f_equal.
  apply map_eq. intros i. rewrite lookup_alter, lookup_insert.
  destruct (decide (hb = i)) as [<- | Hne].
  - rewrite Hb. reflexivity.
  - reflexivity.
Qed.

(** C4: after [update()], the snapshot [current_value] equals the health of
    the observed entity, which [update()] itself leaves as it was. *)
Theorem update_current_value_is_entity_health w hb b e :
  bars w !! hb = Some b ->
  characters w !! HealthBar.entity b = Some e ->
  exists w' b',
    update hb w = (w', Ok tt) /\
    bars w' !! hb = Some b' /\
    HealthBar.entity b' = HealthBar.entity b /\
    characters w' !! HealthBar.entity b' = Some e /\
    HealthBar.current_value b' = Character.health e.
Proof.
  intros Hb He. eexists _, _. split; [apply (update_run _ _ _ _ Hb He) |].
  simpl. rewrite lookup_insert_eq. repeat split; try reflexivity. exact He.
Qed.

(** C7: a second [update()] right after a first one changes nothing: the
    whole state, and so [current_value], is as the first call left it. *)
Theorem update_idempotent w hb :
  (update hb;; update hb) w = update hb w.
Proof.
  destruct (bars w !! hb) as [b |] eqn:Hb.
  - destruct (characters w !! HealthBar.entity b) as [e |] eqn:He.
    + unfold bind at 1. rewrite (update_run _ _ _ _ Hb He).
      rewrite (update_run _ hb
                 (HealthBar.set_current_value (Character.health e) b) e);
        simpl.
      * rewrite insert_insert_eq. reflexivity.
      * apply lookup_insert_eq.
      * exact He.
    + unfold bind at 1. unfold update.
      rewrite (bind_get_bar _ _ _ _ Hb), (bind_get_character_None _ _ _ He).
      reflexivity.
  - unfold bind at 1. unfold update. rewrite (bind_get_bar_None _ _ _ Hb).
    reflexivity.
Qed.

Lemma update_current_value_is_entity_health_witness :
  exists b e,
    bars stale !! 2%positive = Some b /\
    characters stale !! HealthBar.entity b = Some e /\
    HealthBar.current_value b <> Character.health e /\
    exists w' b',
      update 2 stale = (w', Ok tt) /\
      bars w' !! 2%positive = Some b' /\
      HealthBar.entity b' = HealthBar.entity b /\
      characters w' !! HealthBar.entity b' = Some e /\
      HealthBar.current_value b' = Character.health e.
Proof.
  exists (HealthBar.mk 2 20 30 30 true (esc +:+ "[91m")),
         (Character.mk "Goblin" 7 30 club None (Some 2%positive)).
  split; [vm_compute; reflexivity |].
  split; [vm_compute; reflexivity |].
  split; [vm_compute; discriminate |].
  apply (update_current_value_is_entity_health stale 2); vm_compute; reflexivity.
Defined.

(** ** The colour palette *)

(** Case analysis on a hypothesis [H : color ∈ palette], running [tac] on
    each of the ten names. *)
Ltac palette_cases H tac :=
  unfold palette in H;
  repeat (apply elem_of_cons in H; destruct H as [-> | H]; [tac |]);
  apply elem_of_nil in H; destruct H.

Lemma colors_lookup_other (color : string) :
  color ∉ palette -> colors !! color = None.
Proof.
  unfold palette. intros H.
  repeat (apply not_elem_of_cons in H; destruct H as [? H]).
  unfold colors, dict_of. simpl.
  repeat (rewrite lookup_insert_ne by congruence).
  apply lookup_empty.
Qed.

Lemma resolve_color_spec (color : string) :
  resolve_color color =
    if decide (color ∈ palette) then subscript colors color
    else subscript colors "default".
Proof.
  destruct (decide (color ∈ palette)) as [Hin | Hout].
  - palette_cases Hin ltac:(vm_compute; reflexivity).
  - unfold resolve_color. rewrite (colors_lookup_other _ Hout). reflexivity.
Qed.

(** C9: the constructor stores the palette entry of a name of the palette,
    and the palette's ["default"] entry for any other name; the palette has
    exactly the ten names listed. *)
Theorem HealthBar_init_color w entity length is_colored (color : string) e :
  characters w !! entity = Some e ->
  dom colors = list_to_set palette /\
  exists w' hb b,
    HealthBar_init entity length is_colored color w = (w', Ok hb) /\
    bars w' !! hb = Some b /\
    Ok (HealthBar.color b) =
      (if decide (color ∈ palette) then subscript colors color
       else subscript colors "default") /\
    subscript colors "default" = Ok (esc +:+ "[0m").
Proof.
  intros He. split.
  { apply set_eq. intros k. rewrite elem_of_dom, elem_of_list_to_set.
    destruct (decide (k ∈ palette)) as [Hin | Hout].
    - split; [intros _; exact Hin | intros _].
      palette_cases Hin ltac:(vm_compute; eauto).
    - rewrite (colors_lookup_other _ Hout). split; [| tauto].
      intros [? ?]. discriminate. }
  unfold HealthBar_init. rewrite (bind_get_character _ _ _ _ He).
  rewrite <- resolve_color_spec.
  destruct (resolve_color color) as [c | ex] eqn:Hc.
  - rewrite bind_lift_Ok. unfold new_bar. eexists _, _, _.
    split; [reflexivity |]. simpl. rewrite lookup_insert_eq.
    split; [reflexivity |]. split; reflexivity.
  - exfalso. rewrite resolve_color_spec in Hc.
    destruct (decide (color ∈ palette)) as [Hin | Hout].
    + palette_cases Hin ltac:(vm_compute in Hc; discriminate).
    + vm_compute in Hc. discriminate.
Qed.

Lemma HealthBar_init_color_witness :
  characters scene.1 !! 1%positive =
    Some (Character.mk "Aria" 100 100 fists (Some fists) (Some 1%positive)) /\
  exists w' hb b,
    HealthBar_init 1 20 true "magenta" scene.1 = (w', Ok hb) /\
    bars w' !! hb = Some b /\
    HealthBar.color b = esc +:+ "[0m".
Proof.
  split; [vm_compute; reflexivity |].
  destruct (HealthBar_init_color scene.1 1 20 true "magenta"
              (Character.mk "Aria" 100 100 fists (Some fists) (Some 1%positive)))
    as [_ (w' & hb & b & Hrun & Hb & Hcol & Hdef)]; [vm_compute; reflexivity |].
  exists w', hb, b. split; [exact Hrun |]. split; [exact Hb |].
  rewrite decide_False in Hcol by (vm_compute; intros H; inversion H as [| ? ? ? H1]; subst;
    repeat match goal with H : _ ∈ _ |- _ => inversion H; clear H; subst end).
  rewrite Hdef in Hcol. congruence.
Defined.

(** ** [Hero]: [equip] and [drop] *)

Lemma Hero_init_run name health w :
  exists w' hb,
    Hero_init name health w = (w', Ok (fresh (dom (characters w)))) /\
    weapons w' = weapons w /\
    characters w' !! fresh (dom (characters w)) =
      Some (Character.mk name health health fists (Some fists) (Some hb)) /\
    bars w' !! hb =
      Some (HealthBar.mk (fresh (dom (characters w))) 20 health health true
              (esc +:+ "[92m")).
Proof.
  unfold Hero_init, Character_init.
  set (self := fresh (dom (characters w))).
  set (c0 := Character.mk name health health fists None None).
  unfold bind at 1. unfold new_character at 1. fold self.
  rewrite (bind_get_character self c0) by (simpl; apply lookup_insert_eq).
  rewrite bind_update_character. simpl.
  unfold bind at 1. unfold HealthBar_init.
  rewrite (bind_get_character self (Character.set_default_weapon fists c0))
    by (simpl; rewrite alter_insert_eq; apply lookup_insert_eq).
  replace (resolve_color "green") with (@Ok string (esc +:+ "[92m"))
    by (vm_compute; reflexivity).
  rewrite bind_lift_Ok. unfold new_bar. simpl.
  eexists _, _. split; [reflexivity |]. simpl.
  split; [reflexivity |].
  rewrite !alter_insert_eq, !lookup_insert_eq. split; reflexivity.
Qed.

Lemma Enemy_init_run name health weapon w :
  exists w' hb,
    Enemy_init name health weapon w = (w', Ok (fresh (dom (characters w)))) /\
    weapons w' = weapons w /\
    characters w' !! fresh (dom (characters w)) =
      Some (Character.mk name health health weapon None (Some hb)) /\
    bars w' !! hb =
      Some (HealthBar.mk (fresh (dom (characters w))) 20 health health true
              (esc +:+ "[91m")).
Proof.
  unfold Enemy_init, Character_init.
  set (self := fresh (dom (characters w))).
  set (c0 := Character.mk name health health fists None None).
  unfold bind at 1. unfold new_character at 1. fold self.
  rewrite bind_update_character. simpl.
  unfold bind at 1. unfold HealthBar_init.
  rewrite (bind_get_character self (Character.set_weapon weapon c0))
    by (simpl; rewrite alter_insert_eq; apply lookup_insert_eq).
  replace (resolve_color "red") with (@Ok string (esc +:+ "[91m"))
    by (vm_compute; reflexivity).
  rewrite bind_lift_Ok. unfold new_bar. simpl.
  eexists _, _. split; [reflexivity |]. simpl.
  split; [reflexivity |].
  rewrite !alter_insert_eq, !lookup_insert_eq. split; reflexivity.
Qed.

Lemma Hero_init_observed name health w :
  exists hb,
    observed (Hero_init name health w).1 (fresh (dom (characters w))) hb.
Proof.
  destruct (Hero_init_run name health w) as (w' & hb & Hrun & _ & Hc & Hb).
  exists hb. rewrite Hrun. simpl. eexists _, _. eauto.
Qed.

Lemma Enemy_init_observed name health weapon w :
  exists hb,
    observed (Enemy_init name health weapon w).1 (fresh (dom (characters w))) hb.
Proof.
  destruct (Enemy_init_run name health weapon w)
    as (w' & hb & Hrun & _ & Hc & Hb).
  exists hb. rewrite Hrun. simpl. eexists _, _. eauto.
Qed.

Lemma equip_run w h wp c x :
  characters w !! h = Some c ->
  weapons w !! wp = Some x ->
  exists w',
    equip h wp w = (w', Ok tt) /\
    weapons w' = weapons w /\
    characters w' !! h = Some (Character.set_weapon wp c).
Proof.
  intros Hc Hx. unfold equip. rewrite bind_update_character.
  rewrite (bind_get_character h (Character.set_weapon wp c))
    by (simpl; rewrite lookup_alter_eq, Hc; reflexivity).
  rewrite (bind_get_weapon_obj wp x) by exact Hx.
  eexists. split; [reflexivity |]. simpl.
  split; [reflexivity |]. rewrite lookup_alter_eq, Hc. reflexivity.
Qed.

Lemma equip_all_run ws : forall w h c,
  characters w !! h = Some c ->
  Forall (fun wp => is_Some (weapons w !! wp)) ws ->
  exists w' c',
    equip_all h ws w = (w', Ok tt) /\
    weapons w' = weapons w /\
    characters w' !! h = Some c' /\
    Character.default_weapon c' = Character.default_weapon c /\
    Character.weapon c' = default (Character.weapon c) (last ws).
Proof.
  induction ws as [| wp ws IH]; intros w h c Hc Hws.
  - exists w, c. repeat split; [exact Hc].
  - apply Forall_cons in Hws. destruct Hws as [[x Hx] Hws].
    destruct (equip_run w h wp c x Hc Hx) as (w1 & Hrun & Hw1 & Hc1).
    destruct (IH w1 h _ Hc1) as (w' & c' & Hrun' & Hw' & Hc' & Hd & Hlast).
    { rewrite Hw1. exact Hws. }
    exists w', c'. simpl equip_all. unfold bind. rewrite Hrun.
    split; [exact Hrun' |]. split; [congruence |]. split; [exact Hc' |].
    split; [exact Hd |]. rewrite Hlast, last_cons.
    destruct (last ws); reflexivity.
Qed.

Lemma drop_run w h c x d :
  characters w !! h = Some c ->
  weapons w !! Character.weapon c = Some x ->
  Character.default_weapon c = Some d ->
  exists w',
    drop h w = (w', Ok tt) /\
    weapons w' = weapons w /\
    characters w' !! h = Some (Character.set_weapon d c) /\
    stdout w' =
      stdout w ++ [Character.name c +:+ " dropped " +:+ Weapon.name x +:+ "."].
Proof.
  intros Hc Hx Hd. unfold drop.
  rewrite (bind_get_character h c) by exact Hc.
  rewrite (bind_get_weapon_obj _ x) by exact Hx.
  rewrite (bind_get_character h c) by exact Hc.
  rewrite Hd. unfold get_attr. simpl from_option. rewrite bind_lift_Ok.
  rewrite bind_update_character.
  rewrite (bind_get_character h (Character.set_weapon d c))
    by (simpl; rewrite lookup_alter_eq, Hc; reflexivity).
  eexists. split; [reflexivity |]. simpl.
  split; [reflexivity |]. rewrite lookup_alter_eq, Hc. split; reflexivity.
Qed.

(** C6: a hero is built in a store where [fists] is a weapon; after any
    sequence of [equip] calls with weapons of the store, one [drop] puts
    back in [hero.weapon] the very reference it held at construction. *)
Theorem drop_restores_constructed_weapon w name health (ws : list loc) :
  is_Some (weapons w !! fists) ->
  Forall (fun wp => is_Some (weapons w !! wp)) ws ->
  exists w0 hero c0,
    Hero_init name health w = (w0, Ok hero) /\
    characters w0 !! hero = Some c0 /\
    exists w1 c1 w2 c2,
      equip_all hero ws w0 = (w1, Ok tt) /\
      characters w1 !! hero = Some c1 /\
      Character.weapon c1 = default (Character.weapon c0) (last ws) /\
      drop hero w1 = (w2, Ok tt) /\
      characters w2 !! hero = Some c2 /\
      Character.weapon c2 = Character.weapon c0.
Proof.
  intros Hf Hws.
  destruct (Hero_init_run name health w) as (w0 & hb & Hinit & Hw0 & Hc0 & _).
  eexists w0, _, _. split; [exact Hinit |]. split; [exact Hc0 |].
  destruct (equip_all_run ws w0 _ _ Hc0) as (w1 & c1 & Hrun & Hw1 & Hc1 & Hd & Hl).
  { rewrite Hw0. exact Hws. }
  assert (Hx : is_Some (weapons w1 !! Character.weapon c1)).
  { rewrite Hl, Hw1, Hw0. simpl.
    destruct (last ws) as [wp |] eqn:Hlast; simpl; [| exact Hf].
    apply last_Some_elem_of in Hlast.
    rewrite Forall_forall in Hws. apply Hws, Hlast. }
  destruct Hx as [x Hx].
  destruct (drop_run w1 _ c1 x fists Hc1 Hx) as (w2 & Hdrop & _ & Hc2 & _).
  { rewrite Hd. reflexivity. }
  exists w1, c1, w2, (Character.set_weapon fists c1).
  repeat split; assumption.
Qed.

Lemma drop_restores_constructed_weapon_witness :
  exists w0 hero c0,
    Hero_init "Aria" 100 armoury = (w0, Ok hero) /\
    characters w0 !! hero = Some c0 /\
    exists w1 c1 w2 c2,
      equip_all hero [sword; club] w0 = (w1, Ok tt) /\
      characters w1 !! hero = Some c1 /\
      Character.weapon c1 = default (Character.weapon c0) (last [sword; club]) /\
      drop hero w1 = (w2, Ok tt) /\
      characters w2 !! hero = Some c2 /\
      Character.weapon c2 = Character.weapon c0.
Proof.
  apply (drop_restores_constructed_weapon armoury "Aria" 100 [sword; club]).
  - vm_compute. eauto.
  - repeat constructor; vm_compute; eauto.
Defined.

(** ** [Character.attack] *)

(** A successful run of [attack], statement by statement. [e] is the object
    the target's health bar observes, read after the target's health has
    been written. *)
Lemma attack_run w self target s t wp hb b e :
  characters w !! self = Some s ->
  characters w !! target = Some t ->
  weapons w !! Character.weapon s = Some wp ->
  Character.health_bar t = Some hb ->
  bars w !! hb = Some b ->
  let t' := Character.set_health
              (Z.max (Character.health t - Weapon.damage wp) 0) t in
  <[target := t']> (characters w) !! HealthBar.entity b = Some e ->
  attack self target w =
    (mkWorld (weapons w)
       (<[target := t']> (characters w))
       (<[hb := HealthBar.set_current_value (Character.health e) b]> (bars w))
       (stdout w ++ [attack_line s t wp]),
     Ok tt).
Proof.
  intros Hs Ht Hwp Hhb Hb t' He. unfold attack.
  rewrite (bind_get_character target t) by exact Ht.
  rewrite (bind_get_character self s) by exact Hs.
  rewrite (bind_get_weapon_obj _ wp) by exact Hwp.
  rewrite bind_update_character.
  rewrite (bind_get_character target
             (Character.set_health (Character.health t - Weapon.damage wp) t))
    by (simpl; rewrite lookup_alter_eq, Ht; reflexivity).
  rewrite bind_update_character. simpl.
  assert (Hchars :
    alter (Character.set_health (Z.max (Character.health t - Weapon.damage wp) 0))
      target
      (alter (Character.set_health (Character.health t - Weapon.damage wp))
         target (characters w)) = <[target := t']> (characters w)).
  { rewrite (alter_alt_Some _ (characters w) target t Ht), alter_insert_eq.
    reflexivity. }
  rewrite Hchars.
  rewrite (bind_get_character target t') by (simpl; apply lookup_insert_eq).
  replace (Character.health_bar t') with (Some hb) by (symmetry; exact Hhb).
  unfold get_attr. simpl from_option. rewrite bind_lift_Ok.
  unfold bind at 1.
  rewrite (update_run _ hb b e) by (simpl; assumption). simpl.
  assert (Hs' : exists s', <[target := t']> (characters w) !! self = Some s' /\
                  Character.name s' = Character.name s /\
                  Character.weapon s' = Character.weapon s).
  { destruct (decide (target = self)) as [<- | Hne].
    - exists t'. rewrite lookup_insert_eq. rewrite Hs in Ht. inversion Ht.
      repeat split.
    - exists s. rewrite lookup_insert_ne by exact Hne. repeat split. exact Hs. }
  destruct Hs' as (s' & Hs' & Hname & Hweapon).
  rewrite (bind_get_character self s') by (simpl; exact Hs').
  rewrite (bind_get_character target t') by (simpl; apply lookup_insert_eq).
  rewrite (bind_get_weapon_obj _ wp) by (simpl; rewrite Hweapon; exact Hwp).
  unfold print, attack_line. simpl. rewrite Hname. reflexivity.
Qed.

(** C1: when the target's [health_bar] is a bar that observes the target (as
    both subclasses build it), [attack] sets [target.health] to
    [max(target.health - attacker.weapon.damage, 0)] and leaves the bar's
    snapshot equal to it. Attacker and target may be the same object, and
    the target's health may already be 0. *)
Theorem attack_sets_clamped_health w self target s t wp hb b :
  characters w !! self = Some s ->
  characters w !! target = Some t ->
  weapons w !! Character.weapon s = Some wp ->
  Character.health_bar t = Some hb ->
  bars w !! hb = Some b ->
  HealthBar.entity b = target ->
  exists w' t' b',
    attack self target w = (w', Ok tt) /\
    characters w' !! target = Some t' /\
    Character.health t' = Z.max (Character.health t - Weapon.damage wp) 0 /\
    Character.health_bar t' = Some hb /\
    bars w' !! hb = Some b' /\
    HealthBar.entity b' = target /\
    HealthBar.current_value b' = Character.health t'.
Proof.
  intros Hs Ht Hwp Hhb Hb He.
  eexists _, _, _. split.
  - eapply (attack_run w self target s t wp hb b); try eassumption.
    rewrite He. apply lookup_insert_eq.
  - simpl. rewrite !lookup_insert_eq. repeat split; assumption.
Qed.

Lemma attack_sets_clamped_health_witness :
  exists w' t' b',
    attack 2 1 (duel axe) = (w', Ok tt) /\
    characters w' !! 1%positive = Some t' /\
    Character.health t' = Z.max (10 - 15) 0 /\
    Character.health_bar t' = Some 1%positive /\
    bars w' !! 1%positive = Some b' /\
    HealthBar.entity b' = 1%positive /\
    HealthBar.current_value b' = Character.health t'.
Proof.
  apply (attack_sets_clamped_health (duel axe) 2 1
           (Character.mk "Goblin" 30 30 axe None (Some 2%positive))
           (Character.mk "Aria" 10 10 fists (Some fists) (Some 1%positive))
           (Weapon.mk "Axe" 15) 1
           (HealthBar.mk 1 20 10 10 true (esc +:+ "[92m")));
    vm_compute; reflexivity.
Defined.

(** A plain [Character] has no [health_bar]: attacking one writes its health
    and then raises [AttributeError]. *)
Lemma attack_plain_character_raises :
  let w := (Character_init "Dummy" 10) armoury in
  let w' := (Hero_init "Aria" 100;; attack 2 1) w.1 in
  w'.2 = Raise AttributeError /\
  Character.health <$> characters w'.1 !! 1%positive = Some 5.
Proof. vm_compute. split; reflexivity. Qed.

(** C2 (as amended): with a weapon of non-negative damage, [attack] keeps
    [0 <= target.health <= target.health_max]; the lower bound holds for
    every damage value. *)
Theorem attack_keeps_health_in_range w self target s t wp hb b :
  characters w !! self = Some s ->
  characters w !! target = Some t ->
  weapons w !! Character.weapon s = Some wp ->
  Character.health_bar t = Some hb ->
  bars w !! hb = Some b ->
  HealthBar.entity b = target ->
  0 <= Character.health t <= Character.health_max t ->
  exists w' t',
    attack self target w = (w', Ok tt) /\
    characters w' !! target = Some t' /\
    Character.health_max t' = Character.health_max t /\
    0 <= Character.health t' /\
    (0 <= Weapon.damage wp -> Character.health t' <= Character.health_max t').
Proof.
  intros Hs Ht Hwp Hhb Hb He Hrange.
  eexists _, _. split.
  - eapply (attack_run w self target s t wp hb b); try eassumption.
    rewrite He. apply lookup_insert_eq.
  - simpl. rewrite lookup_insert_eq. split; [reflexivity |]. simpl.
    split; [reflexivity |]. split; lia.
Qed.

Lemma attack_keeps_health_in_range_witness :
  exists w' t',
    attack 2 1 (duel axe) = (w', Ok tt) /\
    characters w' !! 1%positive = Some t' /\
    Character.health_max t' = 10 /\
    0 <= Character.health t' /\
    (0 <= 15 -> Character.health t' <= Character.health_max t').
Proof.
  apply (attack_keeps_health_in_range (duel axe) 2 1
           (Character.mk "Goblin" 30 30 axe None (Some 2%positive))
           (Character.mk "Aria" 10 10 fists (Some fists) (Some 1%positive))
           (Weapon.mk "Axe" 15) 1
           (HealthBar.mk 1 20 10 10 true (esc +:+ "[92m")));
    try (vm_compute; reflexivity).
  simpl. lia.
Defined.

(** C2 as stated fails: a weapon of damage -5 takes a hero of health 10/10
    to health 15, above [health_max]. *)
Lemma attack_negative_damage_exceeds_health_max :
  ~ (forall w self target s t wp hb b,
        characters w !! self = Some s ->
        characters w !! target = Some t ->
        weapons w !! Character.weapon s = Some wp ->
        Character.health_bar t = Some hb ->
        bars w !! hb = Some b ->
        HealthBar.entity b = target ->
        0 <= Character.health t <= Character.health_max t ->
        forall t',
          characters (attack self target w).1 !! target = Some t' ->
          0 <= Character.health t' <= Character.health_max t').
Proof.
  intros H.
  specialize (H (duel potion) 2%positive 1%positive
                (Character.mk "Goblin" 30 30 potion None (Some 2%positive))
                (Character.mk "Aria" 10 10 fists (Some fists) (Some 1%positive))
                (Weapon.mk "Potion" (-5)) 1%positive
                (HealthBar.mk 1 20 10 10 true (esc +:+ "[92m"))).
  specialize (H ltac:(vm_compute; reflexivity) ltac:(vm_compute; reflexivity)
                ltac:(vm_compute; reflexivity) ltac:(vm_compute; reflexivity)
                ltac:(vm_compute; reflexivity) ltac:(vm_compute; reflexivity)).
  specialize (H ltac:(simpl; lia)
                (Character.mk "Aria" 15 10 fists (Some fists) (Some 1%positive))
                ltac:(vm_compute; reflexivity)).
  simpl in H. lia.
Qed.

(** *** What [attack] leaves alone *)

Lemma attack_post_holds w self target :
  attack_post w target (attack self target w).1.
Proof.
  unfold attack.
  destruct (characters w !! target) as [t |] eqn:Ht;
    [rewrite (bind_get_character target t) by exact Ht
    | rewrite bind_get_character_None by exact Ht; constructor].
  destruct (characters w !! self) as [s |] eqn:Hs;
    [rewrite (bind_get_character self s) by exact Hs
    | rewrite bind_get_character_None by exact Hs; constructor].
  destruct (weapons w !! Character.weapon s) as [wp |] eqn:Hwp;
    [rewrite (bind_get_weapon_obj _ wp) by exact Hwp
    | rewrite bind_get_weapon_obj_None by exact Hwp; constructor].
  rewrite bind_update_character.
  rewrite (bind_get_character target
             (Character.set_health (Character.health t - Weapon.damage wp) t))
    by (simpl; rewrite lookup_alter_eq, Ht; reflexivity).
  rewrite bind_update_character. simpl.
  set (t' := Character.set_health
               (Z.max (Character.health t - Weapon.damage wp) 0) t).
  assert (Hchars :
    alter (Character.set_health (Z.max (Character.health t - Weapon.damage wp) 0))
      target
      (alter (Character.set_health (Character.health t - Weapon.damage wp))
         target (characters w)) = <[target := t']> (characters w)).
  { rewrite (alter_alt_Some _ (characters w) target t Ht), alter_insert_eq.
    reflexivity. }
  rewrite Hchars.
  rewrite (bind_get_character target t') by (simpl; apply lookup_insert_eq).
  change (Character.health_bar t') with (Character.health_bar t).
  destruct (Character.health_bar t) as [hb |] eqn:Hhb;
    [| apply (post_health w target t _ Ht)].
  unfold get_attr. simpl from_option. rewrite bind_lift_Ok.
  unfold bind at 1.
  destruct (bars w !! hb) as [b |] eqn:Hb.
  2: { unfold update. rewrite bind_get_bar_None by exact Hb.
       apply (post_health w target t _ Ht). }
  destruct (<[target := t']> (characters w) !! HealthBar.entity b)
    as [e |] eqn:He.
  2: { unfold update. rewrite (bind_get_bar hb b) by exact Hb.
       rewrite bind_get_character_None by exact He.
       apply (post_health w target t _ Ht). }
  rewrite (update_run _ hb b e) by (simpl; assumption). simpl.
  assert (Hs' : exists s', <[target := t']> (characters w) !! self = Some s' /\
                  Character.weapon s' = Character.weapon s).
  { destruct (decide (target = self)) as [<- | Hne].
    - exists t'. rewrite lookup_insert_eq. rewrite Hs in Ht. inversion Ht.
      split; reflexivity.
    - exists s. rewrite lookup_insert_ne by exact Hne. split; [exact Hs | reflexivity]. }
  destruct Hs' as (s' & Hs' & Hweapon).
  rewrite (bind_get_character self s') by (simpl; exact Hs').
  rewrite (bind_get_character target t') by (simpl; apply lookup_insert_eq).
  rewrite (bind_get_weapon_obj _ wp) by (simpl; rewrite Hweapon; exact Hwp).
  unfold print. simpl.
  apply (post_bar w target t _ hb b _ _ Ht Hhb Hb).
Qed.

(** The tie between a character and its bar outlives every [attack]. *)
Lemma attack_keeps_observed w self target c hb :
  observed w c hb -> observed (attack self target w).1 c hb.
Proof.
  intros (t & b & Ht & Hhb & Hb & He). unfold observed.
  destruct (attack_post_holds w self target)
    as [| t0 v Ht0 | t0 v hb0 b0 v' line Ht0 Hhb0 Hb0]; simpl.
  - exists t, b. repeat split; assumption.
  - destruct (decide (target = c)) as [-> | Hne].
    + rewrite Ht in Ht0. inversion Ht0; subst t0.
      exists (Character.set_health v t), b. rewrite lookup_insert_eq.
      repeat split; assumption.
    + exists t, b. rewrite lookup_insert_ne by exact Hne.
      repeat split; assumption.
  - assert (Hbar : exists b', <[hb0 := HealthBar.set_current_value v' b0]> (bars w)
                                !! hb = Some b' /\ HealthBar.entity b' = c).
    { destruct (decide (hb0 = hb)) as [-> | Hne].
      - rewrite Hb in Hb0. inversion Hb0; subst b0.
        exists (HealthBar.set_current_value v' b). rewrite lookup_insert_eq.
        split; [reflexivity | exact He].
      - exists b. rewrite lookup_insert_ne by exact Hne. split; assumption. }
    destruct Hbar as (b' & Hb' & He').
    destruct (decide (target = c)) as [-> | Hne].
    + rewrite Ht in Ht0. inversion Ht0; subst t0.
      exists (Character.set_health v t), b'. rewrite lookup_insert_eq.
      repeat split; assumption.
    + exists t, b'. rewrite lookup_insert_ne by exact Hne.
      repeat split; assumption.
Qed.

(** C10: [attack] writes [target.health] and the [current_value] of the
    target's health bar, and nothing else in the store: no weapon, no other
    character (so not the attacker, when it is not the target), no other
    attribute of the target, no other bar and no other attribute of that
    bar. This holds whether [attack] returns or raises. *)
Theorem attack_frame w self target :
  self <> target ->
  let w' := (attack self target w).1 in
  characters w' !! self = characters w !! self /\
  Character.name <$> characters w' !! target
    = Character.name <$> characters w !! target /\
  Character.health_max <$> characters w' !! target
    = Character.health_max <$> characters w !! target /\
  Character.weapon <$> characters w' !! target
    = Character.weapon <$> characters w !! target /\
  Character.default_weapon <$> characters w' !! target
    = Character.default_weapon <$> characters w !! target /\
  Character.health_bar <$> characters w' !! target
    = Character.health_bar <$> characters w !! target /\
  weapons w' = weapons w /\
  (forall c, c <> target -> characters w' !! c = characters w !! c) /\
  (forall hb,
      HealthBar.set_current_value 0 <$> bars w' !! hb
        = HealthBar.set_current_value 0 <$> bars w !! hb) /\
  (forall hb,
      characters w !! target ≫= Character.health_bar <> Some hb ->
      bars w' !! hb = bars w !! hb).
Proof.
  intros Hne w'. subst w'.
  destruct (attack_post_holds w self target)
    as [| t v Ht | t v hb b v' line Ht Hhb Hb]; simpl.
  - repeat split; reflexivity.
  - rewrite lookup_insert_eq, Ht. simpl.
    rewrite lookup_insert_ne by congruence.
    repeat split; try reflexivity.
    intros c Hc. rewrite lookup_insert_ne by congruence. reflexivity.
  - rewrite lookup_insert_eq, Ht. simpl.
    rewrite lookup_insert_ne by congruence.
    repeat split; try reflexivity.
    + intros c Hc. rewrite lookup_insert_ne by congruence. reflexivity.
    + intros hb'. rewrite lookup_insert.
      destruct (decide (hb = hb')) as [<- | _]; [rewrite Hb |]; reflexivity.
    + intros hb' Hhb'. rewrite Hhb in Hhb'.
      rewrite lookup_insert_ne by congruence. reflexivity.
Qed.

Lemma attack_frame_witness :
  let w' := (attack 1 2 scene.1).1 in
  characters w' !! 1%positive = characters scene.1 !! 1%positive /\
  Character.health <$> characters w' !! 2%positive = Some 25 /\
  Character.health_max <$> characters w' !! 2%positive = Some 30 /\
  HealthBar.current_value <$> bars w' !! 2%positive = Some 25 /\
  bars w' !! 1%positive = bars scene.1 !! 1%positive.
Proof.
  destruct (attack_frame scene.1 1 2 ltac:(discriminate))
    as (Hself & _ & Hmax & _ & _ & _ & _ & _ & _ & Hbars).
  split; [exact Hself |]. split; [vm_compute; reflexivity |].
  split; [rewrite Hmax; vm_compute; reflexivity |].
  split; [vm_compute; reflexivity |].
  apply Hbars. vm_compute. discriminate.
Defined.

(** ** [HealthBar.draw] *)

(** On a string of one character, [str_repeat] raises exactly when the
    count does not fit an index. *)
Lemma str_repeat_one_character n (s : string) :
  py_len s = 1 ->
  str_repeat n s =
    if index_sized n then Ok (repeated n s) else Raise OverflowError.
Proof.
  intros Hlen. unfold str_repeat. rewrite Hlen.
  destruct (index_sized n) eqn:Hn; [| reflexivity]. simpl negb. cbv iota.
  unfold index_sized in Hn. apply andb_prop in Hn. destruct Hn as [Hlo Hhi].
  apply Z.leb_le in Hhi.
  destruct (Z.ltb_spec n 1) as [Hsmall | Hbig].
  - unfold repeated. rewrite Z2Nat.nonpos by lia. reflexivity.
  - replace (maxsize / n <? 1) with false; [reflexivity |].
    symmetry. apply Z.ltb_ge.
    assert (0 < maxsize / n) by (apply Z.div_str_pos; lia). lia.
Qed.

Lemma index_sized_true n :
  - 2 ^ 63 <= n <= 2 ^ 63 - 1 -> index_sized n = true.
Proof.
  intros H. unfold index_sized, maxsize.
  apply andb_true_intro. split; apply Z.leb_le; lia.
Qed.

(** The runs of [draw]. The glyph runs are built after the health line is
    printed, so a count that does not fit an index leaves that line behind. *)
Lemma draw_run w hb b e :
  bars w !! hb = Some b ->
  characters w !! HealthBar.entity b = Some e ->
  draw hb w =
    match glyph_counts b with
    | Raise ex => (w, Raise ex)
    | Ok counts =>
        if index_sized counts.1 && index_sized counts.2
        then (mkWorld (weapons w) (characters w) (bars w)
                (stdout w ++ drawn b e counts), Ok tt)
        else (mkWorld (weapons w) (characters w) (bars w)
                (stdout w ++ [health_line e]), Raise OverflowError)
    end.
Proof.
  intros Hb He. unfold draw.
  rewrite (bind_get_bar hb b) by exact Hb.
  destruct (glyph_counts b) as [counts | ex];
    [rewrite bind_lift_Ok | rewrite bind_lift_Raise; reflexivity].
  rewrite (bind_get_character _ e) by exact He.
  rewrite bind_print.
  rewrite !str_repeat_one_character by (vm_compute; reflexivity).
  destruct (index_sized counts.1);
    [rewrite bind_lift_Ok | rewrite bind_lift_Raise; reflexivity].
  destruct (index_sized counts.2);
    [rewrite bind_lift_Ok | rewrite bind_lift_Raise; reflexivity].
  simpl andb. cbv iota. unfold drawn, bar_line, reset_code.
  destruct (HealthBar.is_colored b) eqn:Hcol.
  - replace (subscript colors "default") with (@Ok string (esc +:+ "[0m"))
      by (vm_compute; reflexivity).
    rewrite bind_lift_Ok. unfold print. simpl.
    rewrite <- app_assoc. reflexivity.
  - rewrite bind_ret. unfold print. simpl.
    rewrite <- app_assoc. reflexivity.
Qed.

(** A bar of [2^63] glyphs: the health line is printed, then the filled run
    raises. *)
Example draw_colossus :
  draw 1 colossus =
    (mkWorld (weapons colossus) (characters colossus) (bars colossus)
       ["Titan's Health: 1/1"],
     Raise OverflowError).
Proof. vm_compute. reflexivity. Qed.

(** C5 (as amended): the glyph counts and the bar line that [draw] prints
    depend on the bar alone, its snapshot and its configuration; the health
    line is read from the entity when [draw] runs. On two states with the
    same bar, whose entities agree on [name] and [health_max], [draw] ends
    the same way in both: it raises before printing; or it prints the
    health line of each state's live health and raises [OverflowError] on a
    glyph count that fits no index; or it prints that health line and,
    under it, the same bar line. *)
Theorem draw_bar_line_from_snapshot w1 w2 hb b e1 e2 :
  bars w1 !! hb = Some b ->
  bars w2 !! hb = Some b ->
  characters w1 !! HealthBar.entity b = Some e1 ->
  characters w2 !! HealthBar.entity b = Some e2 ->
  Character.name e1 = Character.name e2 ->
  Character.health_max e1 = Character.health_max e2 ->
  (draw hb w1).2 = (draw hb w2).2 /\
  ((exists ex,
       (draw hb w1).2 = Raise ex /\
       stdout (draw hb w1).1 = stdout w1 /\
       stdout (draw hb w2).1 = stdout w2) \/
   (exists counts,
       glyph_counts b = Ok counts /\
       index_sized counts.1 && index_sized counts.2 = false /\
       (draw hb w1).2 = Raise OverflowError /\
       stdout (draw hb w1).1 =
         stdout w1 ++
           [Character.name e1 +:+ "'s Health: " +:+ pretty (Character.health e1)
              +:+ "/" +:+ pretty (Character.health_max e1)] /\
       stdout (draw hb w2).1 =
         stdout w2 ++
           [Character.name e1 +:+ "'s Health: " +:+ pretty (Character.health e2)
              +:+ "/" +:+ pretty (Character.health_max e1)]) \/
   (exists counts,
       glyph_counts b = Ok counts /\
       (draw hb w1).2 = Ok tt /\
       let line := bar_line b counts.1 counts.2 (reset_code b) in
       stdout (draw hb w1).1 =
         stdout w1 ++
           [Character.name e1 +:+ "'s Health: " +:+ pretty (Character.health e1)
              +:+ "/" +:+ pretty (Character.health_max e1); line] /\
       stdout (draw hb w2).1 =
         stdout w2 ++
           [Character.name e1 +:+ "'s Health: " +:+ pretty (Character.health e2)
              +:+ "/" +:+ pretty (Character.health_max e1); line])).
Proof.
  intros Hb1 Hb2 He1 He2 Hname Hmax.
  rewrite (draw_run w1 hb b e1 Hb1 He1), (draw_run w2 hb b e2 Hb2 He2).
  destruct (glyph_counts b) as [counts | ex]; simpl.
  - destruct (index_sized counts.1 && index_sized counts.2) eqn:Hfit; simpl.
    + split; [reflexivity |]. right. right. exists counts.
      split; [reflexivity |]. split; [reflexivity |].
      unfold drawn, health_line. rewrite <- Hname, <- Hmax. split; reflexivity.
    + split; [reflexivity |]. right. left. exists counts.
      split; [reflexivity |]. split; [exact Hfit |]. split; [reflexivity |].
      unfold health_line. rewrite <- Hname, <- Hmax. split; reflexivity.
  - split; [reflexivity |]. left. exists ex. repeat split.
Qed.

Lemma draw_bar_line_from_snapshot_witness :
  exists line,
    stdout (draw 2 scene.1).1 = ["Goblin's Health: 30/30"; line] /\
    stdout (draw 2 stale).1 = ["Goblin's Health: 7/30"; line].
Proof.
  destruct (draw_bar_line_from_snapshot scene.1 stale 2
              (HealthBar.mk 2 20 30 30 true (esc +:+ "[91m"))
              (Character.mk "Goblin" 30 30 club None (Some 2%positive))
              (Character.mk "Goblin" 7 30 club None (Some 2%positive)))
    as [_ [(ex & Hex & _) | [(counts & _ & _ & Hex & _) | (counts & _ & _ & H1 & H2)]]];
    try (vm_compute; reflexivity).
  - vm_compute in Hex. discriminate.
  - vm_compute in Hex. discriminate.
  - exists (bar_line (HealthBar.mk 2 20 30 30 true (esc +:+ "[91m"))
              counts.1 counts.2
              (reset_code (HealthBar.mk 2 20 30 30 true (esc +:+ "[91m")))).
    split; [exact H1 | exact H2].
Defined.

(** C5 as stated fails: with the snapshot at 30 and the entity's health at
    30 in one state and 7 in the other, [draw] prints different health
    lines. *)
Lemma draw_reads_live_health :
  ~ (forall w1 w2 hb b e1 e2,
        bars w1 !! hb = Some b ->
        bars w2 !! hb = Some b ->
        characters w1 !! HealthBar.entity b = Some e1 ->
        characters w2 !! HealthBar.entity b = Some e2 ->
        Character.name e1 = Character.name e2 ->
        Character.health_max e1 = Character.health_max e2 ->
        stdout w1 = stdout w2 ->
        stdout (draw hb w1).1 = stdout (draw hb w2).1).
Proof.
  intros H.
  specialize (H scene.1 stale 2%positive
                (HealthBar.mk 2 20 30 30 true (esc +:+ "[91m"))
                (Character.mk "Goblin" 30 30 club None (Some 2%positive))
                (Character.mk "Goblin" 7 30 club None (Some 2%positive))).
  specialize (H ltac:(vm_compute; reflexivity) ltac:(vm_compute; reflexivity)
                ltac:(vm_compute; reflexivity) ltac:(vm_compute; reflexivity)
                ltac:(reflexivity) ltac:(reflexivity)
                ltac:(vm_compute; reflexivity)).
  vm_compute in H. discriminate.
Qed.

(** ** Binary64 facts *)

(** *** Bit lengths *)

Lemma digits2_pos_size p : digits2_pos p = Pos.size p.
Proof. induction p as [p IH | p IH |]; simpl; rewrite ?IH; reflexivity. Qed.

Lemma Zdigits2_log2 m : 0 < m -> Zdigits2 m = Z.log2 m + 1.
Proof.
  destruct m as [| p | p]; try lia. intros _. simpl Zdigits2.
  rewrite digits2_pos_size. destruct p as [p | p |]; simpl; lia.
Qed.

Lemma Zdigits2_nonneg m : 0 <= m -> 0 <= Zdigits2 m.
Proof. destruct m; simpl; lia. Qed.

Lemma Zdigits2_pos p : 1 <= Zdigits2 (Zpos p).
Proof. simpl. lia. Qed.

Lemma Zdigits2_mono a b : 0 <= a <= b -> Zdigits2 a <= Zdigits2 b.
Proof.
  intros [Ha Hab]. destruct (Z.eq_dec a 0) as [-> | Hnz].
  - apply Zdigits2_nonneg. lia.
  - rewrite !Zdigits2_log2 by lia.
    pose proof (Z.log2_le_mono a b Hab). lia.
Qed.

Lemma Zdigits2_lt_pow2 m k : 0 <= m -> 0 <= k -> m < 2 ^ k -> Zdigits2 m <= k.
Proof.
  intros Hm Hk Hlt. destruct (Z.eq_dec m 0) as [-> | Hnz]; [simpl; lia |].
  rewrite Zdigits2_log2 by lia.
  apply (Z.log2_lt_pow2 m k) in Hlt; lia.
Qed.

Lemma Zdigits2_succ m : 0 <= m -> Zdigits2 (m + 1) <= Zdigits2 m + 1.
Proof.
  intros Hm. destruct (Z.eq_dec m 0) as [-> | Hnz]; [simpl; lia |].
  rewrite !Zdigits2_log2 by lia.
  pose proof (Z.log2_succ_le m). unfold Z.succ in *. lia.
Qed.

Lemma Zdigits2_mul_pow2 m k : 0 < m -> 0 <= k -> Zdigits2 (m * 2 ^ k) = Zdigits2 m + k.
Proof.
  intros Hm Hk. assert (0 < 2 ^ k) by (apply Z.pow_pos_nonneg; lia).
  rewrite !Zdigits2_log2 by nia. rewrite Z.log2_mul_pow2 by lia. lia.
Qed.

Lemma Zdigits2_div_pow2 m k :
  0 <= m -> 0 <= k -> Zdigits2 (m / 2 ^ k) <= Z.max (Zdigits2 m - k) 0.
Proof.
  intros Hm Hk. assert (Hp : 0 < 2 ^ k) by (apply Z.pow_pos_nonneg; lia).
  assert (Hq : 0 <= m / 2 ^ k) by (apply Z.div_pos; lia).
  destruct (Z.eq_dec (m / 2 ^ k) 0) as [-> | Hnz]; [simpl; lia |].
  assert (Hm' : 0 < m).
  { destruct (Z.eq_dec m 0) as [-> | ?]; [| lia]. rewrite Z.div_0_l in Hnz; lia. }
  rewrite (Zdigits2_log2 m) by lia. rewrite Zdigits2_log2 by lia.
  rewrite <- Z.shiftr_div_pow2 by lia. rewrite Z.log2_shiftr by lia.
  assert (k <= Z.log2 m).
  { apply Z.log2_le_pow2; [lia |].
    destruct (Z_lt_le_dec m (2 ^ k)) as [Hlt | Hle]; [| exact Hle].
    rewrite Z.div_small in Hnz; lia. }
  lia.
Qed.

Lemma Zdigits2_mul a b :
  0 <= a -> 0 <= b -> Zdigits2 (a * b) <= Zdigits2 a + Zdigits2 b.
Proof.
  intros Ha Hb.
  destruct (Z.eq_dec a 0) as [-> | Ha']; [simpl; apply Zdigits2_nonneg; lia |].
  destruct (Z.eq_dec b 0) as [-> | Hb'].
  { rewrite Z.mul_0_r. simpl. pose proof (Zdigits2_nonneg a). lia. }
  rewrite !Zdigits2_log2 by nia.
  pose proof (Z.log2_mul_above a b Ha Hb). lia.
Qed.

(** *** Shifting right *)

Lemma shr_1_m mrs : 0 <= shr_m mrs -> shr_m (shr_1 mrs) = shr_m mrs / 2.
Proof.
  destruct mrs as [m r s]. simpl shr_m. intros Hm.
  rewrite <- Z.div2_div.
  destruct m as [| [p | p |] | p]; try lia; reflexivity.
Qed.

Lemma iter_pos_shr_m p : forall mrs,
  0 <= shr_m mrs ->
  shr_m (SpecFloat.iter_pos shr_1 p mrs) = shr_m mrs / 2 ^ Zpos p.
Proof.
  induction p as [p IH | p IH |]; intros mrs Hm; simpl SpecFloat.iter_pos.
  - assert (H1 : 0 <= shr_m (shr_1 mrs)).
    { rewrite shr_1_m by exact Hm. apply Z.div_pos; lia. }
    assert (Hp : 0 < 2 ^ Zpos p) by (apply Z.pow_pos_nonneg; lia).
    assert (H2 : 0 <= shr_m (SpecFloat.iter_pos shr_1 p (shr_1 mrs))).
    { rewrite IH by exact H1. apply Z.div_pos; lia. }
    rewrite IH by exact H2. rewrite IH by exact H1. rewrite shr_1_m by exact Hm.
    rewrite !Z.div_div by lia.
    f_equal. rewrite Pos2Z.inj_xI.
    replace (2 * Zpos p + 1) with (1 + Zpos p + Zpos p) by lia.
    rewrite !Z.pow_add_r by lia. rewrite Z.pow_1_r. lia.
  - assert (Hp : 0 < 2 ^ Zpos p) by (apply Z.pow_pos_nonneg; lia).
    assert (H2 : 0 <= shr_m (SpecFloat.iter_pos shr_1 p mrs)).
    { rewrite IH by exact Hm. apply Z.div_pos; lia. }
    rewrite IH by exact H2. rewrite IH by exact Hm.
    rewrite Z.div_div by lia. f_equal.
    rewrite Pos2Z.inj_xO. rewrite <- Z.pow_add_r by lia. f_equal. lia.
  - rewrite shr_1_m by exact Hm. reflexivity.
Qed.

Lemma shr_record_of_loc_m m l : shr_m (shr_record_of_loc m l) = m.
Proof. destruct l as [| []]; reflexivity. Qed.

Lemma round_nearest_even_range m l :
  m <= round_nearest_even m l <= m + 1.
Proof.
  unfold round_nearest_even. destruct l as [| []]; try lia.
  destruct (Z.even m); lia.
Qed.

(** *** Rounding stays in range *)

(** The overflow test of [binary_round_aux] on an exponent in range. *)
Ltac exponent_in_range :=
  match goal with
  | |- context [?e <=? PyFloat.emax - PyFloat.prec] =>
      replace (e <=? PyFloat.emax - PyFloat.prec) with true
        by (symmetry; apply Z.leb_le; unfold PyFloat.emax, PyFloat.prec; lia)
  end.

Lemma fexp_eq e : fexp PyFloat.prec PyFloat.emax e = Z.max (e - 53) (-1074).
Proof. reflexivity. Qed.

Lemma shr_fexp_bound m e l :
  0 <= m ->
  0 <= shr_m (shr_fexp PyFloat.prec PyFloat.emax m e l).1 /\
  Zdigits2 (shr_m (shr_fexp PyFloat.prec PyFloat.emax m e l).1)
    + (shr_fexp PyFloat.prec PyFloat.emax m e l).2
    <= Z.max (Zdigits2 m + e) (-1074).
Proof.
  intros Hm. unfold shr_fexp, shr. rewrite fexp_eq.
  destruct (Z.max (Zdigits2 m + e - 53) (-1074) - e) as [| k | k] eqn:Hk;
    cbn [fst snd]; rewrite ?shr_record_of_loc_m; try (split; lia).
  rewrite iter_pos_shr_m by (rewrite shr_record_of_loc_m; exact Hm).
  rewrite shr_record_of_loc_m.
  assert (Hp : 0 < 2 ^ Zpos k) by (apply Z.pow_pos_nonneg; lia).
  split; [apply Z.div_pos; lia |].
  pose proof (Zdigits2_div_pow2 m (Zpos k) Hm ltac:(lia)). lia.
Qed.

(** Rounding a value below [2^K] gives zero or a finite float below
    [2^(K+1)]: neither an infinity nor a NaN. *)
Lemma binary_round_aux_bound s m e l K :
  0 <= m -> Zdigits2 m + e <= K -> -1074 <= K <= 971 ->
  match binary_round_aux PyFloat.prec PyFloat.emax s m e l with
  | S754_zero _ => True
  | S754_finite _ m' e' => Zdigits2 (Zpos m') + e' <= K + 1
  | _ => False
  end.
Proof.
  intros Hm Hmag HK. unfold binary_round_aux.
  pose proof (shr_fexp_bound m e l Hm) as [H1m H1].
  destruct (shr_fexp PyFloat.prec PyFloat.emax m e l) as [mrs1 e1].
  cbn [fst snd] in H1m, H1.
  pose proof (round_nearest_even_range (shr_m mrs1) (loc_of_shr_record mrs1)) as Hr.
  set (m1 := round_nearest_even (shr_m mrs1) (loc_of_shr_record mrs1)) in *.
  assert (Hd1 : Zdigits2 m1 <= Zdigits2 (shr_m mrs1) + 1).
  { etransitivity; [apply (Zdigits2_mono m1 (shr_m mrs1 + 1)); lia |].
    apply Zdigits2_succ; lia. }
  pose proof (shr_fexp_bound m1 e1 loc_Exact ltac:(lia)) as [H2m H2].
  destruct (shr_fexp PyFloat.prec PyFloat.emax m1 e1 loc_Exact) as [mrs2 e2].
  cbn [fst snd] in H2m, H2.
  destruct (shr_m mrs2) as [| p | p] eqn:Hp; [exact I | | lia].
  pose proof (Zdigits2_pos p).
  exponent_in_range.
  lia.
Qed.

Lemma SFdiv_core_bound a b :
  0 < a <= b ->
  0 <= (SFdiv_core_binary PyFloat.prec PyFloat.emax a 0 b 0).1.1 /\
  Zdigits2 (SFdiv_core_binary PyFloat.prec PyFloat.emax a 0 b 0).1.1
    + (SFdiv_core_binary PyFloat.prec PyFloat.emax a 0 b 0).1.2 <= 1.
Proof.
  intros Hab. unfold SFdiv_core_binary.
  set (e' := Z.min _ (0 - 0)).
  assert (He' : e' <= 0) by (subst e'; lia).
  set (s := 0 - 0 - e'). assert (Hs : s = - e') by (subst s; lia).
  set (m' := match s with Z0 => a | Zpos _ => Z.shiftl a s | Zneg _ => 0 end).
  assert (Hm' : m' = a * 2 ^ s).
  { subst m'. destruct s as [| k | k] eqn:Hk; try lia.
    apply Z.shiftl_mul_pow2. lia. }
  destruct (Z.div_eucl m' b) as [q r] eqn:Hdiv. cbn [fst snd].
  assert (Hq : q = m' / b) by (unfold Z.div; rewrite Hdiv; reflexivity).
  assert (Hp : 0 < 2 ^ s) by (apply Z.pow_pos_nonneg; lia).
  assert (Hq0 : 0 <= q) by (rewrite Hq; apply Z.div_pos; nia).
  assert (Hq1 : q <= 2 ^ s).
  { rewrite Hq. apply Z.div_le_upper_bound; [lia |]. rewrite Hm'. nia. }
  split; [exact Hq0 |].
  assert (Zdigits2 q <= s + 1); [| lia].
  apply Zdigits2_lt_pow2; try lia.
  rewrite Z.pow_add_r, Z.pow_1_r by lia. lia.
Qed.

(** A quotient of at most 1 is a float. *)
Lemma int_truediv_bound a b :
  0 < a <= b ->
  exists q, PyFloat.int_truediv a b = Ok q /\ bounded_by 2 q.
Proof.
  intros Hab. unfold PyFloat.int_truediv.
  replace (b =? 0) with false by (symmetry; apply Z.eqb_neq; lia).
  destruct a as [| pa | pa]; try lia. destruct b as [| pb | pb]; try lia.
  unfold PyFloat.exact_int, SFdiv.
  pose proof (SFdiv_core_bound (Zpos pa) (Zpos pb) Hab) as [Hq Hmag].
  destruct (SFdiv_core_binary PyFloat.prec PyFloat.emax (Zpos pa) 0 (Zpos pb) 0)
    as [[mz ez] lz].
  cbn [fst snd] in Hq, Hmag.
  pose proof (binary_round_aux_bound (xorb false false) mz ez lz 1 Hq Hmag
                ltac:(lia)) as Hb.
  destruct (binary_round_aux PyFloat.prec PyFloat.emax (xorb false false) mz ez lz)
    as [sz | sz | | sz m e]; try contradiction; eexists; split; try reflexivity;
    exact Hb.
Qed.

Lemma shl_align_digits mx ex ex' :
  Zdigits2 (Zpos (shl_align mx ex ex').1) + (shl_align mx ex ex').2
    = Zdigits2 (Zpos mx) + ex.
Proof.
  unfold shl_align. destruct (ex' - ex) as [| k | k] eqn:Hk; cbn [fst snd];
    try reflexivity.
  change (Pos.iter xO mx k) with (shift_pos k mx).
  rewrite shift_pos_correct. change (Z.pow_pos 2 k) with (2 ^ Zpos k).
  rewrite Z.mul_comm, Zdigits2_mul_pow2 by lia. lia.
Qed.

Lemma int_to_float_bound n K :
  0 < n -> Zdigits2 n <= K -> K <= 971 ->
  exists y, PyFloat.int_to_float n = Ok y /\ bounded_by (K + 1) y.
Proof.
  intros Hn Hd HK. unfold PyFloat.int_to_float.
  destruct n as [| p | p]; try lia. unfold binary_normalize, binary_round.
  pose proof (shl_align_digits p 0
                (fexp PyFloat.prec PyFloat.emax (Zpos (digits2_pos p) + 0))) as Hal.
  destruct (shl_align p 0 _) as [mz ez]. cbn [fst snd] in Hal.
  pose proof (Zdigits2_pos p).
  pose proof (binary_round_aux_bound false (Zpos mz) ez loc_Exact K
                ltac:(lia) ltac:(lia) ltac:(lia)) as Hb.
  destruct (binary_round_aux PyFloat.prec PyFloat.emax false (Zpos mz) ez loc_Exact)
    as [sz | sz | | sz m e]; try contradiction; eexists; split; try reflexivity;
    exact Hb.
Qed.

Lemma SFmul_bound x y K1 K2 :
  bounded_by K1 x -> bounded_by K2 y -> -1074 <= K1 + K2 <= 971 ->
  bounded_by (K1 + K2 + 1) (SFmul PyFloat.prec PyFloat.emax x y).
Proof.
  intros Hx Hy HK.
  destruct x as [sx | sx | | sx mx ex], y as [sy | sy | | sy my ey];
    try contradiction; try exact I.
  unfold SFmul. simpl in Hx, Hy.
  apply binary_round_aux_bound; try lia.
  rewrite Pos2Z.inj_mul.
  pose proof (Zdigits2_mul (Zpos mx) (Zpos my) ltac:(lia) ltac:(lia)).
  simpl Zdigits2 in *. lia.
Qed.

Lemma round_bounded K x : bounded_by K x -> exists n, PyFloat.round x = Ok n.
Proof.
  destruct x as [sx | sx | | sx mx ex]; try contradiction; intros _; eexists;
    reflexivity.
Qed.

(** [draw] gets past its arithmetic on a partly filled bar. *)
Lemma glyph_counts_total b :
  0 < HealthBar.current_value b <= HealthBar.max_value b ->
  0 < HealthBar.length b <= 2 ^ 53 ->
  exists remaining_bars,
    glyph_counts b = Ok (remaining_bars, HealthBar.length b - remaining_bars).
Proof.
  intros Hcv Hlen. unfold glyph_counts.
  destruct (int_truediv_bound _ _ Hcv) as (q & -> & Hq).
  destruct (int_to_float_bound (HealthBar.length b) 54) as (y & Hy & Hby);
    try lia.
  { apply Zdigits2_lt_pow2; lia. }
  unfold PyFloat.float_mul_int. rewrite Hy.
  pose proof (SFmul_bound q y 2 55 Hq Hby ltac:(lia)) as Hp.
  destruct (round_bounded _ _ Hp) as (n & ->).
  exists n. reflexivity.
Qed.

(** *** Results that are exact *)

(** [a / a] is [1.0], whatever the size of [a]. *)
Lemma int_truediv_same a : 0 < a -> PyFloat.int_truediv a a = Ok PyFloat.one.
Proof.
  intros Ha. unfold PyFloat.int_truediv.
  replace (a =? 0) with false by (symmetry; apply Z.eqb_neq; lia).
  destruct a as [| p | p]; try lia.
  unfold PyFloat.exact_int, SFdiv, SFdiv_core_binary. lazy zeta.
  replace (Zdigits2 (Zpos p) + 0 - (Zdigits2 (Zpos p) + 0)) with 0 by lia.
  change (Z.min (fexp PyFloat.prec PyFloat.emax 0) (0 - 0)) with (-53).
  change (0 - 0 - -53) with 53. lazy iota beta.
  rewrite Z.shiftl_mul_pow2 by lia.
  destruct (Z.div_eucl (Zpos p * 2 ^ 53) (Zpos p)) as [q r] eqn:Hdiv.
  assert (Hq : q = 2 ^ 53).
  { transitivity (Zpos p * 2 ^ 53 / Zpos p).
    - unfold Z.div. rewrite Hdiv. reflexivity.
    - rewrite Z.mul_comm. apply Z.div_mul. lia. }
  assert (Hr : r = 0).
  { transitivity ((Zpos p * 2 ^ 53) mod Zpos p).
    - unfold Z.modulo. rewrite Hdiv. reflexivity.
    - rewrite Z.mul_comm. apply Z.mod_mul. lia. }
  subst q r.
  replace (new_location (Zpos p) 0) with loc_Exact
    by (unfold new_location; destruct (Z.even (Zpos p)); reflexivity).
  vm_compute. reflexivity.
Qed.

Lemma shr_nonpos mrs e z : z <= 0 -> shr mrs e z = (mrs, e).
Proof. intros Hz. destruct z; try reflexivity. lia. Qed.

(** A mantissa that needs no shift is left as it is. *)
Lemma binary_round_aux_exact s m e :
  Z.max (Zdigits2 (Zpos m) + e - 53) (-1074) <= e -> e <= 971 ->
  binary_round_aux PyFloat.prec PyFloat.emax s (Zpos m) e loc_Exact
    = S754_finite s m e.
Proof.
  intros Hcanon He. unfold binary_round_aux, shr_fexp.
  rewrite fexp_eq, shr_nonpos by lia.
  cbn [shr_m loc_of_shr_record shr_record_of_loc round_nearest_even].
  rewrite fexp_eq, shr_nonpos by lia.
  cbn [shr_m shr_record_of_loc].
  exponent_in_range.
  reflexivity.
Qed.

Lemma shr_pos mrs e k :
  shr mrs e (Zpos k) = (SpecFloat.iter_pos shr_1 k mrs, e + Zpos k).
Proof. reflexivity. Qed.

Lemma shr_1_double m :
  0 <= m ->
  shr_1 (Build_shr_record (2 * m) false false) = Build_shr_record m false false.
Proof. destruct m as [| p | p]; try lia; reflexivity. Qed.

Lemma pow2_xO k : 2 ^ Zpos k~0 = 2 ^ Zpos k * 2 ^ Zpos k.
Proof. rewrite <- Z.pow_add_r by lia. f_equal. lia. Qed.

Lemma pow2_xI k : 2 ^ Zpos k~1 = 2 * (2 ^ Zpos k * 2 ^ Zpos k).
Proof.
  rewrite <- Z.pow_add_r by lia. rewrite <- Z.pow_succ_r by lia. f_equal. lia.
Qed.

Lemma iter_pos_shr_exact k : forall m,
  0 <= m ->
  SpecFloat.iter_pos shr_1 k (Build_shr_record (m * 2 ^ Zpos k) false false)
    = Build_shr_record m false false.
Proof.
  induction k as [k IH | k IH |]; intros m Hm; cbn [SpecFloat.iter_pos].
  - assert (Hp : 0 < 2 ^ Zpos k) by (apply Z.pow_pos_nonneg; lia).
    replace (m * 2 ^ Zpos k~1) with (2 * (m * 2 ^ Zpos k * 2 ^ Zpos k))
      by (rewrite pow2_xI; lia).
    rewrite shr_1_double by nia. rewrite IH by nia. apply IH, Hm.
  - assert (Hp : 0 < 2 ^ Zpos k) by (apply Z.pow_pos_nonneg; lia).
    replace (m * 2 ^ Zpos k~0) with (m * 2 ^ Zpos k * 2 ^ Zpos k)
      by (rewrite pow2_xO; lia).
    rewrite IH by nia. apply IH, Hm.
  - rewrite Z.pow_1_r, Z.mul_comm. apply shr_1_double, Hm.
Qed.

(** [1.0 * x] is [x] on a normal [x]. *)
Lemma SFmul_one_l m e :
  Zdigits2 (Zpos m) = 53 -> -1074 <= e <= 971 ->
  SFmul PyFloat.prec PyFloat.emax PyFloat.one (S754_finite false m e)
    = S754_finite false m e.
Proof.
  intros Hd He. unfold SFmul, PyFloat.one, binary_round_aux, shr_fexp.
  rewrite Pos2Z.inj_mul.
  change (Zpos 4503599627370496) with (2 ^ 52).
  rewrite (Z.mul_comm (2 ^ 52)).
  rewrite Zdigits2_mul_pow2 by lia. rewrite Hd, fexp_eq.
  replace (Z.max (53 + 52 + (-52 + e) - 53) (-1074) - (-52 + e)) with 52 by lia.
  rewrite (shr_pos _ _ 52). cbn [shr_record_of_loc].
  rewrite iter_pos_shr_exact by lia.
  cbn [shr_m loc_of_shr_record round_nearest_even].
  rewrite Hd, fexp_eq.
  replace (-52 + e + 52) with e by lia.
  rewrite shr_nonpos by lia. cbn [shr_m shr_record_of_loc].
  exponent_in_range.
  reflexivity.
Qed.

(** Integers up to [2^53] convert to float without loss. *)
Lemma int_to_float_exact n :
  0 < n <= 2 ^ 53 ->
  exists m e, PyFloat.int_to_float n = Ok (S754_finite false m e) /\ holds_int n m e.
Proof.
  intros Hn. destruct (Z.eq_dec n (2 ^ 53)) as [-> | Hne].
  { exists 4503599627370496%positive, 1. split; [vm_compute; reflexivity |].
    unfold holds_int. repeat split; try lia; reflexivity. }
  destruct n as [| p | p]; try lia.
  assert (Hd : Zdigits2 (Zpos p) <= 53) by (apply Zdigits2_lt_pow2; lia).
  pose proof (Zdigits2_pos p) as Hd1.
  unfold PyFloat.int_to_float, binary_normalize, binary_round, shl_align.
  rewrite fexp_eq. simpl Zdigits2 in Hd, Hd1.
  destruct (Z.max (Zpos (digits2_pos p) + 0 - 53) (-1074) - 0) as [| k | k] eqn:Hk;
    try lia.
  - rewrite binary_round_aux_exact by (simpl Zdigits2; lia).
    exists p, 0. split; [reflexivity |]. unfold holds_int. simpl Zdigits2.
    repeat split; try lia.
  - change (Pos.iter xO p k) with (shift_pos k p).
    assert (HM : Zpos (shift_pos k p) = Zpos p * 2 ^ Zpos k).
    { rewrite shift_pos_correct. change (Z.pow_pos 2 k) with (2 ^ Zpos k). lia. }
    assert (HdM : Zdigits2 (Zpos (shift_pos k p)) = 53).
    { rewrite HM, Zdigits2_mul_pow2 by lia. simpl Zdigits2. lia. }
    rewrite binary_round_aux_exact by (rewrite ?HdM; lia).
    eexists _, _. split; [reflexivity |]. unfold holds_int.
    split; [exact HdM |]. split; [lia |]. split; [| lia].
    intros _. rewrite HM. f_equal. f_equal. lia.
Qed.

Lemma round_holds_int n m e :
  holds_int n m e -> PyFloat.round (S754_finite false m e) = Ok n.
Proof.
  intros (_ & He & Hle & Hgt). unfold PyFloat.round, cond_Zopp.
  destruct e as [| k | k].
  - rewrite Z.pow_0_r, Z.mul_1_r. rewrite Hle by lia. simpl. f_equal. lia.
  - rewrite <- Hgt by lia. reflexivity.
  - f_equal. unfold PyFloat.round_half_even.
    rewrite Hle by lia. change (- Zneg k) with (Zpos k).
    assert (Hp : 0 < 2 ^ Zpos k) by (apply Z.pow_pos_nonneg; lia).
    rewrite Z.mod_mul, Z.div_mul by lia.
    replace (2 * 0 ?= 2 ^ Zpos k) with Lt by (symmetry; apply Z.compare_lt_iff; lia).
    reflexivity.
Qed.

(** A full bar and an empty bar. *)
Lemma glyph_counts_full b :
  0 < HealthBar.max_value b ->
  HealthBar.current_value b = HealthBar.max_value b ->
  0 < HealthBar.length b <= 2 ^ 53 ->
  glyph_counts b = Ok (HealthBar.length b, 0).
Proof.
  intros Hmv Hcv Hlen. unfold glyph_counts.
  rewrite Hcv, int_truediv_same by exact Hmv.
  destruct (int_to_float_exact _ Hlen) as (m & e & Hf & Hh).
  unfold PyFloat.float_mul_int. rewrite Hf.
  rewrite SFmul_one_l by (destruct Hh as (? & ? & _); first [assumption | lia]).
  rewrite (round_holds_int _ _ _ Hh). f_equal. f_equal. lia.
Qed.

Lemma glyph_counts_empty b :
  0 < HealthBar.max_value b ->
  HealthBar.current_value b = 0 ->
  0 < HealthBar.length b <= 2 ^ 53 ->
  glyph_counts b = Ok (0, HealthBar.length b).
Proof.
  intros Hmv Hcv Hlen. unfold glyph_counts. rewrite Hcv.
  replace (PyFloat.int_truediv 0 (HealthBar.max_value b))
    with (@Ok spec_float (S754_zero false)).
  2: { unfold PyFloat.int_truediv.
       replace (HealthBar.max_value b =? 0) with false
         by (symmetry; apply Z.eqb_neq; lia).
       destruct (HealthBar.max_value b); try lia. reflexivity. }
  destruct (int_to_float_exact _ Hlen) as (m & e & Hf & Hh).
  unfold PyFloat.float_mul_int. rewrite Hf. simpl. f_equal. f_equal. lia.
Qed.

(** *** Rounding is monotone against a representable bound *)

Lemma shr_1_below mrs N : below mrs (2 * N) -> below (shr_1 mrs) N.
Proof.
  destruct mrs as [m r s]. unfold below, excess. simpl shr_m. simpl shr_r. simpl shr_s.
  intros [Hm Hle].
  destruct m as [| [p | p |] | p]; try lia; simpl;
    destruct r, s; simpl in *; lia.
Qed.

Lemma iter_pos_below k : forall mrs N,
  below mrs (N * 2 ^ Zpos k) -> below (SpecFloat.iter_pos shr_1 k mrs) N.
Proof.
  induction k as [k IH | k IH |]; intros mrs N H; cbn [SpecFloat.iter_pos].
  - apply IH, IH, shr_1_below.
    replace (2 * (N * 2 ^ Zpos k * 2 ^ Zpos k)) with (N * 2 ^ Zpos k~1)
      by (rewrite pow2_xI; lia).
    exact H.
  - apply IH, IH.
    replace (N * 2 ^ Zpos k * 2 ^ Zpos k) with (N * 2 ^ Zpos k~0)
      by (rewrite pow2_xO; lia).
    exact H.
  - apply shr_1_below. rewrite Z.pow_1_r, Z.mul_comm in H. exact H.
Qed.

Lemma round_nearest_even_below mrs N :
  below mrs N ->
  0 <= round_nearest_even (shr_m mrs) (loc_of_shr_record mrs) <= N.
Proof.
  destruct mrs as [m r s]. unfold below, excess. simpl.
  intros [Hm Hle]. destruct r, s; simpl in *; try lia.
  destruct (Z.even m); lia.
Qed.

Lemma binary_round_aux_le s m e l N :
  0 <= m ->
  let k := fexp PyFloat.prec PyFloat.emax (Zdigits2 m + e) - e in
  below (shr_record_of_loc m l) (N * 2 ^ Z.max k 0) ->
  match binary_round_aux PyFloat.prec PyFloat.emax s m e l with
  | S754_finite _ m2 e2 =>
      e + Z.max k 0 <= e2 /\ Zpos m2 * 2 ^ (e2 - (e + Z.max k 0)) <= N
  | _ => True
  end.
Proof.
  intros Hm k Hbelow. unfold binary_round_aux, shr_fexp. fold k.
  assert (H1 : below (shr (shr_record_of_loc m l) e k).1 N /\
               (shr (shr_record_of_loc m l) e k).2 = e + Z.max k 0).
  { destruct k as [| p | p] eqn:Hk; cbn [shr fst snd].
    - rewrite Z.mul_1_r in Hbelow. split; [exact Hbelow | lia].
    - rewrite Z.max_l in Hbelow by lia. split; [apply iter_pos_below, Hbelow | lia].
    - rewrite Z.max_r in Hbelow by lia. rewrite Z.mul_1_r in Hbelow.
      split; [exact Hbelow | lia]. }
  destruct (shr (shr_record_of_loc m l) e k) as [mrs1 e1].
  cbn [fst snd] in H1. destruct H1 as [Hb1 He1].
  pose proof (round_nearest_even_below mrs1 N Hb1) as Hr.
  set (m1 := round_nearest_even (shr_m mrs1) (loc_of_shr_record mrs1)) in *.
  set (k2 := fexp PyFloat.prec PyFloat.emax (Zdigits2 m1 + e1) - e1).
  assert (H2 : shr_m (shr (shr_record_of_loc m1 loc_Exact) e1 k2).1 * 2 ^ Z.max k2 0 <= m1 /\
               (shr (shr_record_of_loc m1 loc_Exact) e1 k2).2 = e1 + Z.max k2 0).
  { destruct k2 as [| p | p] eqn:Hk2; cbn [shr fst snd shr_record_of_loc shr_m].
    - change (Z.max 0 0) with 0. rewrite Z.pow_0_r. lia.
    - rewrite iter_pos_shr_m by (simpl; lia). simpl shr_m.
      rewrite Z.max_l by lia.
      assert (0 < 2 ^ Zpos p) by (apply Z.pow_pos_nonneg; lia).
      split; [| lia]. rewrite Z.mul_comm. apply Z.mul_div_le. lia.
    - rewrite Z.max_r by lia. rewrite Z.pow_0_r. lia. }
  destruct (shr (shr_record_of_loc m1 loc_Exact) e1 k2) as [mrs2 e2].
  cbn [fst snd] in H2. destruct H2 as [Hm2 He2].
  destruct (shr_m mrs2) as [| p2 | p2]; try exact I.
  destruct (e2 <=? PyFloat.emax - PyFloat.prec); [| exact I].
  split; [lia |].
  replace (e2 - (e + Z.max k 0)) with (Z.max k2 0) by lia. lia.
Qed.

Lemma binary_round_aux_sign s m e l :
  match binary_round_aux PyFloat.prec PyFloat.emax s m e l with
  | S754_finite s' _ _ => s' = s
  | _ => True
  end.
Proof.
  unfold binary_round_aux.
  destruct (shr_fexp _ _ m e l) as [mrs1 e1].
  destruct (shr_fexp _ _ _ e1 loc_Exact) as [mrs2 e2].
  destruct (shr_m mrs2); try exact I.
  destruct (e2 <=? _); [reflexivity | exact I].
Qed.

Lemma new_location_excess q b r :
  excess (shr_record_of_loc q (new_location b r)) = if r =? 0 then 0 else 1.
Proof.
  unfold new_location, new_location_even, new_location_odd.
  destruct (Z.even b), (r =? 0); try reflexivity.
  - destruct (2 * r ?= b); reflexivity.
  - destruct (2 * r + 1 ?= b); reflexivity.
Qed.

Lemma SFdiv_core_below a b :
  0 < a <= b ->
  (SFdiv_core_binary PyFloat.prec PyFloat.emax a 0 b 0).1.2 <= 0 /\
  below (shr_record_of_loc
           (SFdiv_core_binary PyFloat.prec PyFloat.emax a 0 b 0).1.1
           (SFdiv_core_binary PyFloat.prec PyFloat.emax a 0 b 0).2)
    (2 ^ (- (SFdiv_core_binary PyFloat.prec PyFloat.emax a 0 b 0).1.2)).
Proof.
  intros Hab. unfold SFdiv_core_binary.
  set (e' := Z.min _ (0 - 0)).
  assert (He' : e' <= 0) by (subst e'; lia).
  set (s := 0 - 0 - e'). assert (Hs : s = - e') by (subst s; lia).
  set (m' := match s with Z0 => a | Zpos _ => Z.shiftl a s | Zneg _ => 0 end).
  assert (Hm' : m' = a * 2 ^ s).
  { subst m'. destruct s as [| k | k] eqn:Hk; try lia.
    apply Z.shiftl_mul_pow2. lia. }
  pose proof (Z.div_eucl_eq m' b ltac:(lia)) as Heq.
  pose proof (Z.mod_pos_bound m' b ltac:(lia)) as Hr.
  unfold Z.modulo in Hr.
  destruct (Z.div_eucl m' b) as [q r]. cbn [fst snd].
  split; [exact He' |].
  assert (Hp : 0 < 2 ^ s) by (apply Z.pow_pos_nonneg; lia).
  unfold below. rewrite shr_record_of_loc_m, new_location_excess, <- Hs.
  assert (Hq0 : 0 <= q) by nia.
  split; [exact Hq0 |].
  destruct (Z.eqb_spec r 0) as [-> | Hnz]; nia.
Qed.

(** A quotient [a / b] with [0 < a <= b] is a float in (0, 1]. *)
Lemma int_truediv_le_one a b :
  0 < a <= b ->
  exists q, PyFloat.int_truediv a b = Ok q /\ at_most_one q.
Proof.
  intros Hab. unfold PyFloat.int_truediv.
  replace (b =? 0) with false by (symmetry; apply Z.eqb_neq; lia).
  destruct a as [| pa | pa]; try lia. destruct b as [| pb | pb]; try lia.
  unfold PyFloat.exact_int, SFdiv.
  pose proof (SFdiv_core_bound (Zpos pa) (Zpos pb) Hab) as [Hq Hmag].
  pose proof (SFdiv_core_below (Zpos pa) (Zpos pb) Hab) as [He' Hbelow].
  destruct (SFdiv_core_binary PyFloat.prec PyFloat.emax (Zpos pa) 0 (Zpos pb) 0)
    as [[mz ez] lz].
  cbn [fst snd] in Hq, Hmag, He', Hbelow.
  pose proof (binary_round_aux_bound (xorb false false) mz ez lz 1 Hq Hmag
                ltac:(lia)) as Hb.
  pose proof (binary_round_aux_sign (xorb false false) mz ez lz) as Hsign.
  set (k := fexp PyFloat.prec PyFloat.emax (Zdigits2 mz + ez) - ez).
  assert (Hk : Z.max k 0 <= - ez).
  { subst k. rewrite fexp_eq. lia. }
  pose proof (binary_round_aux_le (xorb false false) mz ez lz
                (2 ^ (- ez - Z.max k 0)) Hq) as Hle.
  cbv zeta in Hle. fold k in Hle.
  rewrite <- Z.pow_add_r in Hle by lia.
  replace (- ez - Z.max k 0 + Z.max k 0) with (- ez) in Hle by lia.
  specialize (Hle Hbelow).
  destruct (binary_round_aux PyFloat.prec PyFloat.emax (xorb false false) mz ez lz)
    as [sz | sz | | sz m e]; try contradiction.
  - eexists. split; [reflexivity | exact I].
  - eexists. split; [reflexivity |]. simpl in Hsign. subst sz. simpl.
    destruct Hle as [He1 Hle].
    set (e1 := ez + Z.max k 0) in *.
    replace (- ez - Z.max k 0) with (- e1) in Hle by lia.
    assert (Hp : 0 < 2 ^ (e - e1)) by (apply Z.pow_pos_nonneg; lia).
    assert (He : e <= 0).
    { assert (2 ^ (e - e1) <= 2 ^ (- e1)) by nia.
      apply Z.pow_le_mono_r_iff in H; lia. }
    split; [exact He |].
    replace (2 ^ (- e1)) with (2 ^ (- e) * 2 ^ (e - e1)) in Hle
      by (rewrite <- Z.pow_add_r by lia; f_equal; lia).
    nia.
Qed.

Lemma Zdigits2_gt p : Zpos p < 2 ^ Zdigits2 (Zpos p).
Proof.
  rewrite Zdigits2_log2 by lia.
  pose proof (Z.log2_spec (Zpos p) ltac:(lia)). unfold Z.succ in *. lia.
Qed.

Lemma at_most_one_bounded x : at_most_one x -> bounded_by 1 x.
Proof.
  destruct x as [sx | sx | | [] m e]; try contradiction; try exact (fun _ => I).
  intros [He Hm]. unfold bounded_by.
  assert (Zdigits2 (Zpos m) <= - e + 1); [| lia].
  apply Zdigits2_lt_pow2; try lia.
  rewrite Z.pow_add_r, Z.pow_1_r by lia. lia.
Qed.

(** The product of a float of at most 1 and a float holding [n] is at most
    [n]. *)
Lemma SFmul_at_most x n M E :
  at_most_one x -> holds_int n M E -> 0 < n ->
  at_most n (SFmul PyFloat.prec PyFloat.emax x (S754_finite false M E)).
Proof.
  intros Hx Hh Hn.
  pose proof (at_most_one_bounded x Hx) as Hbx.
  assert (Hby : bounded_by 54 (S754_finite false M E)).
  { destruct Hh as (Hd & HE & _). unfold bounded_by. lia. }
  pose proof (SFmul_bound x _ 1 54 Hbx Hby ltac:(lia)) as Hbound.
  destruct x as [sx | sx | | [] mq eq]; try contradiction; [exact I |].
  destruct Hx as [Heq Hmq]. destruct Hh as (Hd & HE & HM0 & HM1).
  unfold SFmul in *.
  pose proof (Zdigits2_gt M) as HMlt. rewrite Hd in HMlt.
  assert (Hpq : 0 < 2 ^ (- eq)) by (apply Z.pow_pos_nonneg; lia).
  assert (HD : Zdigits2 (Zpos (mq * M)) <= 53 - eq).
  { apply Zdigits2_lt_pow2; try lia.
    rewrite Pos2Z.inj_mul. replace (53 - eq) with (- eq + 53) by lia.
    rewrite Z.pow_add_r by lia. nia. }
  set (k := fexp PyFloat.prec PyFloat.emax (Zdigits2 (Zpos (mq * M)) + (eq + E))
            - (eq + E)).
  assert (Hk : Z.max k 0 <= - eq) by (subst k; rewrite fexp_eq; lia).
  pose proof (binary_round_aux_sign (xorb false false) (Zpos (mq * M)) (eq + E)
                loc_Exact) as Hsign.
  pose proof (binary_round_aux_le (xorb false false) (Zpos (mq * M)) (eq + E)
                loc_Exact (Zpos M * 2 ^ (- eq - Z.max k 0)) ltac:(lia)) as Hle.
  cbv zeta in Hle. fold k in Hle.
  assert (Hbelow : below (shr_record_of_loc (Zpos (mq * M)) loc_Exact)
                     (Zpos M * 2 ^ (- eq - Z.max k 0) * 2 ^ Z.max k 0)).
  { unfold below, excess. simpl shr_m. simpl orb. cbv iota.
    rewrite <- Z.mul_assoc, <- Z.pow_add_r by lia.
    replace (- eq - Z.max k 0 + Z.max k 0) with (- eq) by lia.
    rewrite Pos2Z.inj_mul. nia. }
  specialize (Hle Hbelow).
  destruct (binary_round_aux PyFloat.prec PyFloat.emax (xorb false false)
              (Zpos (mq * M)) (eq + E) loc_Exact)
    as [sz | sz | | sz m2 e2]; try contradiction; [exact I |].
  simpl in Hsign. subst sz. unfold at_most.
  destruct Hle as [He1 Hle].
  set (e1 := eq + E + Z.max k 0) in *.
  replace (- eq - Z.max k 0) with (E - e1) in Hle by lia.
  assert (He1E : e1 <= E) by lia.
  assert (HP : 0 < 2 ^ (e2 - e1)) by (apply Z.pow_pos_nonneg; lia).
  destruct (Z_le_gt_dec e1 0) as [Hneg | Hpos].
  - (* the grid of the result is at most 1 *)
    assert (HN : Zpos M * 2 ^ (E - e1) = n * 2 ^ (- e1)).
    { destruct (Z_le_gt_dec E 0) as [HE0 | HE1].
      - rewrite HM0 by exact HE0. rewrite <- Z.mul_assoc, <- Z.pow_add_r by lia.
        f_equal. f_equal. lia.
      - assert (E = 1) by lia. subst E. rewrite (HM1 ltac:(lia)).
        rewrite Z.pow_1_r. replace (1 - e1) with (1 + - e1) by lia.
        rewrite Z.pow_add_r, Z.pow_1_r by lia. lia. }
    rewrite HN in Hle.
    assert (Hp1 : 0 < 2 ^ (- e1)) by (apply Z.pow_pos_nonneg; lia).
    split; intros He2.
    + replace (e2 - e1) with (e2 + - e1) in Hle by lia.
      rewrite Z.pow_add_r in Hle by lia.
      assert (0 < 2 ^ e2) by (apply Z.pow_pos_nonneg; lia). nia.
    + replace (- e1) with (- e2 + (e2 - e1)) in Hle by lia.
      rewrite Z.pow_add_r in Hle by lia.
      assert (0 < 2 ^ (- e2)) by (apply Z.pow_pos_nonneg; lia). nia.
  - (* only for n = 2^53 *)
    assert (E = 1) by lia. subst E. assert (e1 = 1) by lia.
    replace (1 - e1) with 0 in Hle by lia. rewrite Z.pow_0_r, Z.mul_1_r in Hle.
    split; intros He2; [| lia].
    rewrite (HM1 ltac:(lia)), Z.pow_1_r.
    replace e2 with (e2 - e1 + 1) at 1 by lia.
    rewrite Z.pow_add_r, Z.pow_1_r by lia. nia.
Qed.

Lemma round_half_even_le m k n :
  0 <= m -> 0 <= k -> m <= n * 2 ^ k ->
  0 <= PyFloat.round_half_even m k <= n.
Proof.
  intros Hm Hk Hle. unfold PyFloat.round_half_even.
  assert (Hp : 0 < 2 ^ k) by (apply Z.pow_pos_nonneg; lia).
  pose proof (Z.div_mod m (2 ^ k) ltac:(lia)) as Hdm.
  pose proof (Z.mod_pos_bound m (2 ^ k) Hp) as Hr.
  assert (Hq0 : 0 <= m / 2 ^ k) by (apply Z.div_pos; lia).
  set (P := 2 ^ k) in *. set (q := m / P) in *. set (r := m mod P) in *.
  assert (Hqn : q <= n) by nia.
  destruct (Z.compare_spec (2 * r) P) as [Heq | Hlt | Hgt].
  - destruct (Z.even q); [lia |]. nia.
  - lia.
  - nia.
Qed.

Lemma round_at_most n x :
  0 <= n -> at_most n x -> exists r, PyFloat.round x = Ok r /\ 0 <= r <= n.
Proof.
  intros Hn Hx.
  destruct x as [sx | sx | | [] m e]; try contradiction.
  - exists 0. split; [reflexivity | lia].
  - destruct Hx as [Hpos Hneg]. unfold PyFloat.round, cond_Zopp.
    eexists. split; [reflexivity |].
    destruct e as [| p | p].
    + specialize (Hpos ltac:(lia)). lia.
    + specialize (Hpos ltac:(lia)).
      assert (0 < 2 ^ Zpos p) by (apply Z.pow_pos_nonneg; lia). nia.
    + apply round_half_even_le; try lia. apply Hneg. lia.
Qed.

(** With at most [2^53] glyphs, the filled count is between 0 and
    [length]. *)
Lemma glyph_counts_within b :
  0 <= HealthBar.current_value b <= HealthBar.max_value b ->
  0 < HealthBar.max_value b ->
  0 < HealthBar.length b <= 2 ^ 53 ->
  exists r,
    glyph_counts b = Ok (r, HealthBar.length b - r) /\
    0 <= r <= HealthBar.length b.
Proof.
  intros Hcv Hmv Hlen.
  destruct (Z.eq_dec (HealthBar.current_value b) 0) as [H0 | Hn0].
  - exists 0. rewrite Z.sub_0_r. split; [| lia].
    apply glyph_counts_empty; assumption.
  - unfold glyph_counts.
    destruct (int_truediv_le_one (HealthBar.current_value b)
                (HealthBar.max_value b) ltac:(lia)) as (q & -> & Hq).
    destruct (int_to_float_exact _ Hlen) as (M & E & Hf & Hh).
    unfold PyFloat.float_mul_int. rewrite Hf.
    pose proof (SFmul_at_most q _ M E Hq Hh ltac:(lia)) as Hp.
    destruct (round_at_most (HealthBar.length b) _ ltac:(lia) Hp)
      as (r & -> & Hr).
    exists r. split; [reflexivity | exact Hr].
Qed.

(** *** The float of a large int *)

Lemma Zdigits2_bounds p :
  2 ^ (Zdigits2 (Zpos p) - 1) <= Zpos p < 2 ^ Zdigits2 (Zpos p).
Proof.
  rewrite Zdigits2_log2 by lia.
  pose proof (Z.log2_spec (Zpos p) ltac:(lia)) as H. unfold Z.succ in H.
  replace (Z.log2 (Zpos p) + 1 - 1) with (Z.log2 (Zpos p)) by lia. exact H.
Qed.

Lemma Zdigits2_unique m d : 2 ^ (d - 1) <= m < 2 ^ d -> 1 <= d -> Zdigits2 m = d.
Proof.
  intros Hm Hd.
  assert (0 < 2 ^ (d - 1)) by (apply Z.pow_pos_nonneg; lia).
  rewrite Zdigits2_log2 by lia.
  rewrite (Z.log2_unique m (d - 1)); [lia | lia |].
  unfold Z.succ. replace (d - 1 + 1) with d by lia. exact Hm.
Qed.

(** Rounding a mantissa of at least 53 bits in the normal range gives a
    full 53-bit mantissa, or overflows. *)
Lemma binary_round_aux_normal s m e l :
  53 <= Zdigits2 (Zpos m) -> -1074 <= e ->
  match binary_round_aux PyFloat.prec PyFloat.emax s (Zpos m) e l with
  | S754_finite s2 m2 e2 =>
      s2 = s /\ Zdigits2 (Zpos m2) = 53 /\ -1074 <= e2 <= 971
  | S754_infinity _ => True
  | _ => False
  end.
Proof.
  intros Hd He. unfold binary_round_aux, shr_fexp. rewrite fexp_eq.
  set (d := Zdigits2 (Zpos m)) in *.
  set (k := Z.max (d + e - 53) (-1074) - e).
  assert (Hk : k = d - 53) by (subst k; lia).
  pose proof (Zdigits2_bounds m) as Hm. fold d in Hm.
  assert (H1 : exists mrs1,
             shr (shr_record_of_loc (Zpos m) l) e k = (mrs1, e + k) /\
             2 ^ 52 <= shr_m mrs1 < 2 ^ 53).
  { destruct k as [| pk | pk] eqn:Hpk; try lia.
    - exists (shr_record_of_loc (Zpos m) l).
      split; [cbn [shr]; rewrite Z.add_0_r; reflexivity |].
      rewrite shr_record_of_loc_m. replace d with 53 in Hm by lia.
      exact Hm.
    - eexists. split; [reflexivity |].
      rewrite iter_pos_shr_m by (rewrite shr_record_of_loc_m; lia).
      rewrite shr_record_of_loc_m.
      assert (Hp : 0 < 2 ^ Zpos pk) by (apply Z.pow_pos_nonneg; lia).
      replace (d - 1) with (52 + Zpos pk) in Hm by lia.
      replace d with (53 + Zpos pk) in Hm by lia.
      rewrite !Z.pow_add_r in Hm by lia.
      split.
      + apply Z.div_le_lower_bound; lia.
      + apply Z.div_lt_upper_bound; lia. }
  destruct H1 as (mrs1 & -> & Hm1).
  pose proof (round_nearest_even_range (shr_m mrs1) (loc_of_shr_record mrs1)) as Hr.
  set (m1 := round_nearest_even (shr_m mrs1) (loc_of_shr_record mrs1)) in *.
  destruct (Z.eq_dec m1 (2 ^ 53)) as [Hcarry | Hno].
  - rewrite Hcarry, fexp_eq.
    replace (Z.max (Zdigits2 (2 ^ 53) + (e + k) - 53) (-1074) - (e + k)) with 1
      by (change (Zdigits2 (2 ^ 53)) with 54; lia).
    cbn [shr shr_record_of_loc SpecFloat.iter_pos].
    change (shr_1 {| shr_m := 2 ^ 53; shr_r := false; shr_s := false |})
      with {| shr_m := 2 ^ 52; shr_r := false; shr_s := false |}.
    cbn [shr_m]. change (2 ^ 52) with (Zpos 4503599627370496).
    cbv iota.
    destruct (e + k + 1 <=? PyFloat.emax - PyFloat.prec) eqn:Hfin; [| exact I].
    apply Z.leb_le in Hfin. unfold PyFloat.emax, PyFloat.prec in Hfin.
    split; [reflexivity |]. split; [reflexivity | lia].
  - assert (Hd1 : Zdigits2 m1 = 53) by (apply Zdigits2_unique; lia).
    rewrite fexp_eq, Hd1.
    rewrite shr_nonpos by lia. cbn [shr_m shr_record_of_loc].
    destruct m1 as [| p1 | p1] eqn:Hp1; try lia.
    destruct (e + k <=? PyFloat.emax - PyFloat.prec) eqn:Hfin; [| exact I].
    apply Z.leb_le in Hfin. unfold PyFloat.emax, PyFloat.prec in Hfin.
    split; [reflexivity |]. split; [exact Hd1 | lia].
Qed.

(** Whenever an int converts to float, the float is normal. *)
Lemma int_to_float_normal n y :
  0 < n -> PyFloat.int_to_float n = Ok y ->
  exists M E,
    y = S754_finite false M E /\ Zdigits2 (Zpos M) = 53 /\ -1074 <= E <= 971.
Proof.
  intros Hn Hy. destruct (Z_le_gt_dec n (2 ^ 53)) as [Hsmall | Hbig].
  - destruct (int_to_float_exact n ltac:(lia)) as (M & E & Hf & Hd & HE & _).
    rewrite Hf in Hy. inversion Hy; subst y. exists M, E.
    split; [reflexivity |]. split; [exact Hd | lia].
  - destruct n as [| p | p]; try lia.
    assert (Hd : 54 <= Zdigits2 (Zpos p)).
    { rewrite Zdigits2_log2 by lia.
      assert (53 <= Z.log2 (Zpos p)) by (apply Z.log2_le_pow2; lia). lia. }
    unfold PyFloat.int_to_float, binary_normalize, binary_round, shl_align in Hy.
    rewrite fexp_eq in Hy. change (Zpos (digits2_pos p)) with (Zdigits2 (Zpos p)) in Hy.
    destruct (Z.max (Zdigits2 (Zpos p) + 0 - 53) (-1074) - 0) as [| k | k] eqn:Hk;
      try lia.
    pose proof (binary_round_aux_normal false p 0 loc_Exact ltac:(lia) ltac:(lia))
      as Hnorm.
    destruct (binary_round_aux PyFloat.prec PyFloat.emax false (Zpos p) 0 loc_Exact)
      as [sz | sz | | sz M E]; try contradiction; try discriminate.
    inversion Hy; subst y. destruct Hnorm as (-> & HdM & HE).
    exists M, E. repeat split; try assumption; lia.
Qed.

(** A full bar of any length: the filled count is [round(float(length))]. *)
Lemma glyph_counts_full_any b r l :
  0 < HealthBar.max_value b ->
  0 < HealthBar.length b ->
  HealthBar.current_value b = HealthBar.max_value b ->
  glyph_counts b = Ok (r, l) ->
  exists y,
    PyFloat.int_to_float (HealthBar.length b) = Ok y /\ PyFloat.round y = Ok r.
Proof.
  intros Hmv Hlen Hcv Hc. unfold glyph_counts in Hc.
  rewrite Hcv, int_truediv_same in Hc by exact Hmv.
  unfold PyFloat.float_mul_int in Hc.
  destruct (PyFloat.int_to_float (HealthBar.length b)) as [y | ex] eqn:Hy;
    [| discriminate].
  destruct (int_to_float_normal _ y Hlen Hy) as (M & E & -> & Hd & HE).
  rewrite SFmul_one_l in Hc by assumption.
  exists (S754_finite false M E). split; [reflexivity |].
  destruct (PyFloat.round (S754_finite false M E)) as [r' | ex]; [| discriminate].
  inversion Hc. reflexivity.
Qed.

(** An empty bar of any length has no filled glyph. *)
Lemma glyph_counts_empty_any b r l :
  0 < HealthBar.max_value b ->
  HealthBar.current_value b = 0 ->
  glyph_counts b = Ok (r, l) ->
  r = 0.
Proof.
  intros Hmv Hcv Hc. unfold glyph_counts in Hc. rewrite Hcv in Hc.
  replace (PyFloat.int_truediv 0 (HealthBar.max_value b))
    with (@Ok spec_float (S754_zero false)) in Hc.
  2: { unfold PyFloat.int_truediv.
       replace (HealthBar.max_value b =? 0) with false
         by (symmetry; apply Z.eqb_neq; lia).
       destruct (HealthBar.max_value b); try lia. reflexivity. }
  unfold PyFloat.float_mul_int in Hc.
  destruct (PyFloat.int_to_float (HealthBar.length b)) as [y | ex];
    [| discriminate].
  destruct y as [sy | sy | | sy my ey]; simpl in Hc; try discriminate;
    inversion Hc; reflexivity.
Qed.

(** Whatever [draw] counts adds up to [length]. *)
Lemma glyph_counts_sum b r l :
  glyph_counts b = Ok (r, l) -> r + l = HealthBar.length b.
Proof.
  unfold glyph_counts.
  destruct (PyFloat.int_truediv _ _) as [q | ex]; [| discriminate].
  destruct (PyFloat.float_mul_int q _) as [p | ex]; [| discriminate].
  destruct (PyFloat.round p) as [r' | ex]; [| discriminate].
  intros H. inversion H. lia.
Qed.

(** ** Glyph counts *)

Lemma round_half_even_nearest m k :
  0 <= k -> nearest_ties_even m k (PyFloat.round_half_even m k).
Proof.
  intros Hk. unfold nearest_ties_even, PyFloat.round_half_even.
  assert (Hp : 0 < 2 ^ k) by (apply Z.pow_pos_nonneg; lia).
  pose proof (Z.div_mod m (2 ^ k) ltac:(lia)) as Hdm.
  pose proof (Z.mod_pos_bound m (2 ^ k) Hp) as Hr.
  set (P := 2 ^ k) in *. set (q := m / P) in *. set (r := m mod P) in *.
  destruct (Z.compare_spec (2 * r) P) as [Heq | Hlt | Hgt].
  - destruct (Z.even q) eqn:Hev.
    + replace (2 * m - 2 * q * P) with (2 * r) by lia. split; [lia | intros _; exact Hev].
    + replace (2 * m - 2 * (q + 1) * P) with (2 * r - 2 * P) by lia.
      split; [lia |]. intros _.
      rewrite Z.add_1_r, Z.even_succ, <- Z.negb_even, Hev. reflexivity.
  - replace (2 * m - 2 * q * P) with (2 * r) by lia. split; lia.
  - replace (2 * m - 2 * (q + 1) * P) with (2 * r - 2 * P) by lia. split; lia.
Qed.

(** A healthy bar of at most [2^53] glyphs is drawn in full: both lines. *)
Lemma draw_within w hb b e :
  bars w !! hb = Some b ->
  characters w !! HealthBar.entity b = Some e ->
  0 <= HealthBar.current_value b <= HealthBar.max_value b ->
  0 < HealthBar.max_value b ->
  0 < HealthBar.length b <= 2 ^ 53 ->
  exists r,
    glyph_counts b = Ok (r, HealthBar.length b - r) /\
    0 <= r <= HealthBar.length b /\
    draw hb w =
      (mkWorld (weapons w) (characters w) (bars w)
         (stdout w ++ drawn b e (r, HealthBar.length b - r)), Ok tt).
Proof.
  intros Hb He Hcv Hmv Hlen.
  destruct (glyph_counts_within b Hcv Hmv Hlen) as (r & Hc & Hr).
  exists r. split; [exact Hc |]. split; [exact Hr |].
  rewrite (draw_run w hb b e Hb He), Hc. cbn [fst snd].
  rewrite !index_sized_true by lia. reflexivity.
Qed.

(** C3 (as amended): whatever glyph counts [draw] computes add up to
    [length], and on an empty bar the filled count is 0, for every length.
    On a full bar the filled count is [round(float(length))]; the float of
    a length up to [2^53] is exact, so there the filled count is [length].
    Up to [2^53] glyphs, with [0 <= current_value <= max_value] and
    [max_value > 0], [draw] does compute the counts and prints the bar. *)
Theorem glyph_counts_rendering_invariant :
  (forall b remaining_bars lost_bars,
      glyph_counts b = Ok (remaining_bars, lost_bars) ->
      remaining_bars + lost_bars = HealthBar.length b) /\
  (forall b remaining_bars lost_bars,
      0 < HealthBar.max_value b ->
      0 < HealthBar.length b ->
      HealthBar.current_value b = 0 ->
      glyph_counts b = Ok (remaining_bars, lost_bars) ->
      remaining_bars = 0) /\
  (forall b remaining_bars lost_bars,
      0 < HealthBar.max_value b ->
      0 < HealthBar.length b ->
      HealthBar.current_value b = HealthBar.max_value b ->
      glyph_counts b = Ok (remaining_bars, lost_bars) ->
      exists y,
        PyFloat.int_to_float (HealthBar.length b) = Ok y /\
        PyFloat.round y = Ok remaining_bars) /\
  (forall n,
      0 < n <= 2 ^ 53 ->
      exists y, PyFloat.int_to_float n = Ok y /\ PyFloat.round y = Ok n) /\
  (forall b remaining_bars lost_bars,
      0 < HealthBar.max_value b ->
      0 < HealthBar.length b <= 2 ^ 53 ->
      HealthBar.current_value b = HealthBar.max_value b ->
      glyph_counts b = Ok (remaining_bars, lost_bars) ->
      remaining_bars = HealthBar.length b) /\
  (forall w hb b e,
      bars w !! hb = Some b ->
      characters w !! HealthBar.entity b = Some e ->
      0 <= HealthBar.current_value b <= HealthBar.max_value b ->
      0 < HealthBar.max_value b ->
      0 < HealthBar.length b <= 2 ^ 53 ->
      exists remaining_bars lost_bars,
        glyph_counts b = Ok (remaining_bars, lost_bars) /\
        draw hb w =
          (mkWorld (weapons w) (characters w) (bars w)
             (stdout w ++ drawn b e (remaining_bars, lost_bars)), Ok tt)).
Proof.
  split; [exact glyph_counts_sum |].
  split; [intros b r l Hmv _; apply glyph_counts_empty_any, Hmv |].
  split; [exact glyph_counts_full_any |].
  split; [| split].
  - intros n Hn. destruct (int_to_float_exact n Hn) as (M & E & Hf & Hh).
    eexists. split; [exact Hf |]. apply round_holds_int, Hh.
  - intros b r l Hmv Hlen Hcv Hc.
    rewrite (glyph_counts_full b Hmv Hcv Hlen) in Hc. congruence.
  - intros w hb b e Hb He Hcv Hmv Hlen.
    destruct (draw_within w hb b e Hb He Hcv Hmv Hlen) as (r & Hc & _ & Hd).
    eauto.
Qed.

(** C3 as stated fails: on a full bar of [2^53 + 1] glyphs the product
    [1.0 * length] is rounded to the float [2^53], so [draw] counts [2^53]
    filled glyphs and one lost glyph. *)
Lemma glyph_counts_wide_bar :
  ~ (forall b,
        0 <= HealthBar.current_value b <= HealthBar.max_value b ->
        0 < HealthBar.max_value b ->
        0 < HealthBar.length b ->
        forall remaining_bars lost_bars,
          glyph_counts b = Ok (remaining_bars, lost_bars) ->
          remaining_bars + lost_bars = HealthBar.length b /\
          (HealthBar.current_value b = HealthBar.max_value b ->
           remaining_bars = HealthBar.length b) /\
          (HealthBar.current_value b = 0 -> remaining_bars = 0)).
Proof.
  intros H.
  destruct (H wide_bar ltac:(simpl; lia) ltac:(simpl; lia) ltac:(simpl; lia)
              (2 ^ 53) 1 ltac:(vm_compute; reflexivity)) as (_ & Hfull & _).
  specialize (Hfull eq_refl). vm_compute in Hfull. discriminate.
Qed.

(** C8: with [max_value > 0] the division does not raise
    [ZeroDivisionError]. The counts of [draw] are
    [round(current_value / max_value * length)] and [length] minus it, or
    [draw] raises what that arithmetic raises, before printing. With the
    counts, [draw] prints the health line, then that many filled and lost
    glyphs; when a count fits no index it raises [OverflowError] after the
    health line instead. [round] is to the nearest integer, a tie going to
    the even one. With 25, 30 and 20 the counts are 17 and 3. *)
Theorem draw_glyph_counts_formula w hb b e :
  bars w !! hb = Some b ->
  characters w !! HealthBar.entity b = Some e ->
  0 < HealthBar.max_value b ->
  glyph_counts b =
    match round_ratio (HealthBar.current_value b) (HealthBar.max_value b)
            (HealthBar.length b) with
    | Ok remaining_glyphs =>
        Ok (remaining_glyphs, HealthBar.length b - remaining_glyphs)
    | Raise ex => Raise ex
    end /\
  draw hb w =
    match round_ratio (HealthBar.current_value b) (HealthBar.max_value b)
            (HealthBar.length b) with
    | Ok remaining_glyphs =>
        let lost_glyphs := HealthBar.length b - remaining_glyphs in
        if index_sized remaining_glyphs && index_sized lost_glyphs
        then (mkWorld (weapons w) (characters w) (bars w)
                (stdout w ++
                   [health_line e;
                    bar_line b remaining_glyphs lost_glyphs (reset_code b)]),
              Ok tt)
        else (mkWorld (weapons w) (characters w) (bars w)
                (stdout w ++ [health_line e]),
              Raise OverflowError)
    | Raise ex => (w, Raise ex)
    end /\
  PyFloat.int_truediv (HealthBar.current_value b) (HealthBar.max_value b)
    <> Raise ZeroDivisionError /\
  (forall s m k,
      exists n,
        PyFloat.round (S754_finite s m (Zneg k)) = Ok (cond_Zopp s n) /\
        nearest_ties_even (Zpos m) (Zpos k) n) /\
  (forall s m x,
      0 <= x ->
      PyFloat.round (S754_finite s m x) = Ok (cond_Zopp s (Zpos m * 2 ^ x))) /\
  (HealthBar.current_value b = 25 -> HealthBar.max_value b = 30 ->
   HealthBar.length b = 20 -> glyph_counts b = Ok (17, 3)).
Proof.
  intros Hb He Hmv.
  assert (Hcounts :
    glyph_counts b =
      match round_ratio (HealthBar.current_value b) (HealthBar.max_value b)
              (HealthBar.length b) with
      | Ok r => Ok (r, HealthBar.length b - r)
      | Raise ex => Raise ex
      end).
  { unfold glyph_counts, round_ratio.
    destruct (PyFloat.int_truediv _ _) as [q | ex]; [| reflexivity].
    destruct (PyFloat.float_mul_int q _) as [p | ex]; [| reflexivity].
    destruct (PyFloat.round p) as [r | ex]; reflexivity. }
  split; [exact Hcounts |].
  split.
  { rewrite (draw_run w hb b e Hb He), Hcounts.
    destruct (round_ratio _ _ _) as [r | ex]; reflexivity. }
  split.
  { unfold PyFloat.int_truediv.
    replace (HealthBar.max_value b =? 0) with false
      by (symmetry; apply Z.eqb_neq; lia).
    destruct (SFdiv _ _ _ _); discriminate. }
  split.
  { intros s m k. eexists. split; [reflexivity |].
    apply round_half_even_nearest. lia. }
  split.
  { intros s m x Hx. destruct x; try lia; reflexivity. }
  intros Hcv Hmax Hlen. unfold glyph_counts. rewrite Hcv, Hmax, Hlen.
  vm_compute. reflexivity.
Qed.

Lemma glyph_counts_rendering_invariant_witness :
  17 + 3 = HealthBar.length goblin_bar /\
  (exists remaining_bars lost_bars,
      glyph_counts vast_bar = Ok (remaining_bars, lost_bars) /\
      remaining_bars = 0) /\
  (exists y,
      PyFloat.int_to_float (HealthBar.length wide_bar) = Ok y /\
      PyFloat.round y = Ok (2 ^ 53)) /\
  (exists y, PyFloat.int_to_float 20 = Ok y /\ PyFloat.round y = Ok 20) /\
  (exists remaining_bars lost_bars,
      glyph_counts (HealthBar.mk 1 20 100 100 true (esc +:+ "[92m"))
        = Ok (remaining_bars, lost_bars) /\
      remaining_bars = 20) /\
  (exists remaining_bars lost_bars,
      glyph_counts goblin_bar = Ok (remaining_bars, lost_bars) /\
      draw 2 struck =
        (mkWorld (weapons struck) (characters struck) (bars struck)
           (stdout struck ++ drawn goblin_bar goblin (remaining_bars, lost_bars)),
         Ok tt)).
Proof.
  destruct glyph_counts_rendering_invariant
    as (Hsum & Hempty & Hfull & Hexact & Hfits & Hdraw).
  split; [apply (Hsum goblin_bar 17 3); vm_compute; reflexivity |].
  split.
  { exists 0, (2 ^ 900 + 1).
    split; [vm_compute; reflexivity |].
    apply (Hempty vast_bar 0 (2 ^ 900 + 1)); vm_compute; reflexivity. }
  split.
  { apply (Hfull wide_bar (2 ^ 53) 1); try (vm_compute; reflexivity);
      unfold wide_bar; cbn [HealthBar.max_value HealthBar.length]; lia. }
  split; [apply (Hexact 20); lia |].
  split.
  { exists 20, 0. split; [vm_compute; reflexivity |].
    apply (Hfits (HealthBar.mk 1 20 100 100 true (esc +:+ "[92m")) 20 0);
      try (vm_compute; reflexivity);
      cbn [HealthBar.max_value HealthBar.length]; lia. }
  apply (Hdraw struck 2%positive goblin_bar goblin); try (vm_compute; reflexivity);
    unfold goblin_bar;
    cbn [HealthBar.current_value HealthBar.max_value HealthBar.length]; lia.
Defined.

Lemma draw_glyph_counts_formula_witness :
  glyph_counts goblin_bar = Ok (17, 3) /\
  draw 2 struck =
    (mkWorld (weapons struck) (characters struck) (bars struck)
       (stdout struck ++
          [health_line goblin; bar_line goblin_bar 17 3 (reset_code goblin_bar)]),
     Ok tt).
Proof.
  destruct (draw_glyph_counts_formula struck 2 goblin_bar goblin)
    as (_ & Hdraw & _ & _ & _ & Hex);
    [vm_compute; reflexivity | vm_compute; reflexivity
    | unfold goblin_bar; cbn [HealthBar.max_value]; lia |].
  split; [apply Hex; reflexivity |].
  rewrite Hdraw.
  replace (round_ratio (HealthBar.current_value goblin_bar)
             (HealthBar.max_value goblin_bar) (HealthBar.length goblin_bar))
    with (@Ok Z 17) by (vm_compute; reflexivity).
  reflexivity.
Defined.

(** * Further properties *)

(** ** [attack]: failures *)

(** X1: when the target or the attacker is not a character, or the
    attacker's weapon is not a weapon, [attack] raises [AttributeError]
    before it has written anything: the state is the one it started from. *)
Theorem attack_bad_operand_changes_nothing w self target :
  characters w !! target = None \/
  characters w !! self = None \/
  (exists s, characters w !! self = Some s /\
             weapons w !! Character.weapon s = None) ->
  attack self target w = (w, Raise AttributeError).
Proof.
  intros H. unfold attack.
  destruct (characters w !! target) as [t |] eqn:Ht;
    [rewrite (bind_get_character target t) by exact Ht
    | rewrite bind_get_character_None by exact Ht; reflexivity].
  destruct H as [H | [Hs | (s & Hs & Hwp)]]; [discriminate | |].
  - rewrite bind_get_character_None by exact Hs. reflexivity.
  - rewrite (bind_get_character self s) by exact Hs.
    rewrite bind_get_weapon_obj_None by exact Hwp. reflexivity.
Qed.

Lemma attack_bad_operand_changes_nothing_witness :
  attack 1 7 scene.1 = (scene.1, Raise AttributeError).
Proof.
  apply (attack_bad_operand_changes_nothing scene.1 1 7).
  left. vm_compute. reflexivity.
Defined.

(** The first two statements of [attack]. *)
Lemma attack_writes_health w self target s t wp :
  characters w !! self = Some s ->
  characters w !! target = Some t ->
  weapons w !! Character.weapon s = Some wp ->
  let t' := Character.set_health
              (Z.max (Character.health t - Weapon.damage wp) 0) t in
  attack self target w =
    (let* hb := get_attr (Character.health_bar t) in
     update hb;;
     let* s := get_character self in
     let* t := get_character target in
     let* wp := get_weapon_obj (Character.weapon s) in
     print (Character.name s +:+ " attacks " +:+ Character.name t +:+ " with "
              +:+ Weapon.name wp +:+ " for " +:+ pretty (Weapon.damage wp)
              +:+ " damage."))
      (mkWorld (weapons w) (<[target := t']> (characters w)) (bars w) (stdout w)).
Proof.
  intros Hs Ht Hwp t'. unfold attack.
  rewrite (bind_get_character target t) by exact Ht.
  rewrite (bind_get_character self s) by exact Hs.
  rewrite (bind_get_weapon_obj _ wp) by exact Hwp.
  rewrite bind_update_character.
  rewrite (bind_get_character target
             (Character.set_health (Character.health t - Weapon.damage wp) t))
    by (simpl; rewrite lookup_alter_eq, Ht; reflexivity).
  rewrite bind_update_character. simpl.
  rewrite (alter_alt_Some _ (characters w) target t Ht), alter_insert_eq.
  fold t'.
  rewrite (bind_get_character target t') by (simpl; apply lookup_insert_eq).
  reflexivity.
Qed.

(** X2: on a target without a [health_bar] (a plain [Character]), [attack]
    has already written the clamped health when it raises [AttributeError];
    it prints nothing and touches no bar. *)
Theorem attack_without_health_bar w self target s t wp :
  characters w !! self = Some s ->
  characters w !! target = Some t ->
  weapons w !! Character.weapon s = Some wp ->
  Character.health_bar t = None ->
  attack self target w =
    (mkWorld (weapons w)
       (<[target := Character.set_health
                      (Z.max (Character.health t - Weapon.damage wp) 0) t]>
          (characters w))
       (bars w) (stdout w),
     Raise AttributeError).
Proof.
  intros Hs Ht Hwp Hhb.
  rewrite (attack_writes_health w self target s t wp Hs Ht Hwp).
  rewrite Hhb. reflexivity.
Qed.

Lemma attack_without_health_bar_witness :
  (attack 2 1 training).2 = Raise AttributeError /\
  Character.health <$> characters (attack 2 1 training).1 !! 1%positive = Some 5 /\
  stdout (attack 2 1 training).1 = stdout training.
Proof.
  rewrite (attack_without_health_bar training 2 1
             (Character.mk "Aria" 100 100 fists (Some fists) (Some 1%positive))
             (Character.mk "Dummy" 10 10 fists None None)
             (Weapon.mk "Fists" 5));
    try (vm_compute; reflexivity).
  split; [reflexivity |]. split; [vm_compute; reflexivity | reflexivity].
Defined.

(** ** [attack]: repeated blows *)

(** X3: [n] attacks with a weapon of damage [d >= 0] on a target of health
    [h >= 0] leave it at [max(h - n*d, 0)]; each prints its line, and the
    bar's snapshot follows the health. *)
Theorem attack_times_health n : forall w self target s t wp hb b,
  characters w !! self = Some s ->
  characters w !! target = Some t ->
  weapons w !! Character.weapon s = Some wp ->
  Character.health_bar t = Some hb ->
  bars w !! hb = Some b ->
  HealthBar.entity b = target ->
  0 <= Weapon.damage wp ->
  0 <= Character.health t ->
  exists w' t' b',
    attack_times n self target w = (w', Ok tt) /\
    characters w' !! target = Some t' /\
    Character.health t' =
      Z.max (Character.health t - Z.of_nat n * Weapon.damage wp) 0 /\
    bars w' !! hb = Some b' /\
    (n <> O -> HealthBar.current_value b' = Character.health t') /\
    stdout w' = stdout w ++ replicate n (attack_line s t wp).
Proof.
  induction n as [| n IH]; intros w self target s t wp hb b Hs Ht Hwp Hhb Hb He Hd Hh.
  - exists w, t, b. simpl. rewrite app_nil_r.
    repeat split; try assumption; try lia.
  - set (h1 := Z.max (Character.health t - Weapon.damage wp) 0).
    set (t1 := Character.set_health h1 t).
    set (b1 := HealthBar.set_current_value h1 b).
    set (w1 := mkWorld (weapons w) (<[target := t1]> (characters w))
                 (<[hb := b1]> (bars w)) (stdout w ++ [attack_line s t wp])).
    assert (Hrun : attack self target w = (w1, Ok tt)).
    { apply (attack_run w self target s t wp hb b t1 Hs Ht Hwp Hhb Hb).
      rewrite He. apply lookup_insert_eq. }
    assert (Hs1 : exists s1,
               <[target := t1]> (characters w) !! self = Some s1 /\
               Character.weapon s1 = Character.weapon s /\
               Character.name s1 = Character.name s).
    { destruct (decide (target = self)) as [<- | Hne].
      - exists t1. rewrite lookup_insert_eq. rewrite Hs in Ht. inversion Ht.
        repeat split.
      - exists s. rewrite lookup_insert_ne by exact Hne. repeat split. exact Hs. }
    destruct Hs1 as (s1 & Hs1 & Hw1 & Hn1).
    destruct (IH w1 self target s1 t1 wp hb b1) as (w' & t' & b' & Hrun' & Ht' & Hh' & Hb' & Hcv' & Hout');
      try (simpl; first [exact Hs1 | apply lookup_insert_eq | assumption | lia]).
    { simpl. rewrite Hw1. exact Hwp. }
    exists w', t', b'. cbn [attack_times]. unfold bind. rewrite Hrun.
    split; [exact Hrun' |]. split; [exact Ht' |].
    split.
    { rewrite Hh'. simpl Character.health. subst h1.
      rewrite Nat2Z.inj_succ. nia. }
    split; [exact Hb' |]. split.
    { intros _. destruct n as [| n'].
      - simpl in Hrun'. inversion Hrun'; subst w'.
        unfold w1 in Ht', Hb'. simpl in Ht', Hb'.
        rewrite lookup_insert_eq in Ht'. rewrite lookup_insert_eq in Hb'.
        inversion Ht'; inversion Hb'.
        reflexivity.
      - apply Hcv'. discriminate. }
    rewrite Hout'. simpl stdout. rewrite <- app_assoc. f_equal.
    unfold attack_line. simpl. rewrite Hn1. reflexivity.
Qed.

Lemma attack_times_health_witness :
  exists w' t' b',
    attack_times 7 1 2 scene.1 = (w', Ok tt) /\
    characters w' !! 2%positive = Some t' /\
    Character.health t' = Z.max (30 - 7 * 5) 0 /\
    bars w' !! 2%positive = Some b' /\
    (7%nat <> O -> HealthBar.current_value b' = Character.health t') /\
    stdout w' =
      stdout scene.1 ++
        replicate 7 "Aria attacks Goblin with Fists for 5 damage.".
Proof.
  apply (attack_times_health 7 scene.1 1 2
           (Character.mk "Aria" 100 100 fists (Some fists) (Some 1%positive))
           (Character.mk "Goblin" 30 30 club None (Some 2%positive))
           (Weapon.mk "Fists" 5) 2
           (HealthBar.mk 2 20 30 30 true (esc +:+ "[91m")));
    try (vm_compute; reflexivity); simpl; lia.
Defined.

(** ** [draw] and [update]: what they touch *)

(** X4: [draw] changes no object. It prints two lines and returns, or it
    raises with nothing printed, or, when a glyph count fits no index, it
    prints the health line alone and raises [OverflowError]. *)
Theorem draw_only_prints w hb :
  (exists line1 line2,
      draw hb w =
        (mkWorld (weapons w) (characters w) (bars w)
           (stdout w ++ [line1; line2]), Ok tt)) \/
  (exists ex, draw hb w = (w, Raise ex)) \/
  (exists b e counts,
      bars w !! hb = Some b /\
      characters w !! HealthBar.entity b = Some e /\
      glyph_counts b = Ok counts /\
      index_sized counts.1 && index_sized counts.2 = false /\
      draw hb w =
        (mkWorld (weapons w) (characters w) (bars w)
           (stdout w ++ [health_line e]), Raise OverflowError)).
Proof.
  destruct (bars w !! hb) as [b |] eqn:Hb.
  2: { right. left. exists AttributeError. unfold draw.
       rewrite bind_get_bar_None by exact Hb. reflexivity. }
  destruct (characters w !! HealthBar.entity b) as [e |] eqn:He.
  - rewrite (draw_run w hb b e Hb He).
    destruct (glyph_counts b) as [counts | ex] eqn:Hc;
      [| right; left; eauto].
    destruct (index_sized counts.1 && index_sized counts.2) eqn:Hfit.
    + left. unfold drawn. eauto.
    + right. right. exists b, e, counts. rewrite Hc. auto.
  - right. left. unfold draw. rewrite (bind_get_bar hb b) by exact Hb.
    destruct (glyph_counts b) as [counts | ex];
      [rewrite bind_lift_Ok | rewrite bind_lift_Raise; eauto].
    rewrite bind_get_character_None by exact He. eauto.
Qed.

(** X5: on a bar whose [max_value] is 0, [draw] raises
    [ZeroDivisionError] and prints nothing. *)
Theorem draw_zero_max_value w hb b :
  bars w !! hb = Some b ->
  HealthBar.max_value b = 0 ->
  draw hb w = (w, Raise ZeroDivisionError).
Proof.
  intros Hb Hmax. unfold draw. rewrite (bind_get_bar hb b) by exact Hb.
  unfold glyph_counts, PyFloat.int_truediv. rewrite Hmax. reflexivity.
Qed.

Lemma draw_zero_max_value_witness :
  draw 1 ghost_town = (ghost_town, Raise ZeroDivisionError).
Proof.
  apply (draw_zero_max_value ghost_town 1
           (HealthBar.mk 1 20 0 0 true (esc +:+ "[92m")));
    vm_compute; reflexivity.
Defined.

(** X6: [update] writes the [current_value] of its own bar and nothing
    else: no character, no weapon, no other bar, no other attribute of the
    bar, no output. When it does not return, it has raised [AttributeError]
    and the state is untouched. *)
Theorem update_writes_snapshot_only w hb :
  let w' := (update hb w).1 in
  weapons w' = weapons w /\
  characters w' = characters w /\
  stdout w' = stdout w /\
  (forall hb', hb' <> hb -> bars w' !! hb' = bars w !! hb') /\
  HealthBar.set_current_value 0 <$> bars w' !! hb
    = HealthBar.set_current_value 0 <$> bars w !! hb /\
  ((update hb w).2 = Ok tt \/ update hb w = (w, Raise AttributeError)).
Proof.
  assert (Hfail : update hb w = (w, Raise AttributeError) ->
    let w' := (update hb w).1 in
    weapons w' = weapons w /\ characters w' = characters w /\
    stdout w' = stdout w /\
    (forall hb', hb' <> hb -> bars w' !! hb' = bars w !! hb') /\
    HealthBar.set_current_value 0 <$> bars w' !! hb
      = HealthBar.set_current_value 0 <$> bars w !! hb /\
    ((update hb w).2 = Ok tt \/ update hb w = (w, Raise AttributeError))).
  { intros ->. simpl. repeat split. right. reflexivity. }
  destruct (bars w !! hb) as [b |] eqn:Hb.
  2: { apply Hfail. unfold update. rewrite bind_get_bar_None by exact Hb.
       reflexivity. }
  destruct (characters w !! HealthBar.entity b) as [e |] eqn:He.
  - rewrite (update_run w hb b e Hb He). simpl.
    split; [reflexivity |]. split; [reflexivity |]. split; [reflexivity |].
    split; [| split].
    + intros hb' Hne. apply lookup_insert_ne. congruence.
    + rewrite lookup_insert_eq. reflexivity.
    + left. reflexivity.
  - apply Hfail. unfold update. rewrite (bind_get_bar hb b) by exact Hb.
    rewrite bind_get_character_None by exact He. reflexivity.
Qed.

(** ** [attack] and [draw] together *)

(** X7: [draw] right after [attack], with no [update] in between, renders
    the health the attack left: the health line and the glyph counts are
    those of the clamped value. When a count fits no index, [draw] raises
    [OverflowError] after the attack line and the health line; when the
    arithmetic of the counts raises, after the attack line alone. *)
Theorem attack_then_draw w self target s t wp hb b :
  characters w !! self = Some s ->
  characters w !! target = Some t ->
  weapons w !! Character.weapon s = Some wp ->
  Character.health_bar t = Some hb ->
  bars w !! hb = Some b ->
  HealthBar.entity b = target ->
  let h := Z.max (Character.health t - Weapon.damage wp) 0 in
  let t' := Character.set_health h t in
  let b' := HealthBar.set_current_value h b in
  let w' := mkWorld (weapons w) (<[target := t']> (characters w))
              (<[hb := b']> (bars w)) (stdout w ++ [attack_line s t wp]) in
  (attack self target;; draw hb) w =
    match glyph_counts b' with
    | Ok counts =>
        if index_sized counts.1 && index_sized counts.2
        then (mkWorld (weapons w') (characters w') (bars w')
                (stdout w ++
                   [attack_line s t wp; health_line t';
                    bar_line b' counts.1 counts.2 (reset_code b')]),
              Ok tt)
        else (mkWorld (weapons w') (characters w') (bars w')
                (stdout w ++ [attack_line s t wp; health_line t']),
              Raise OverflowError)
    | Raise ex => (w', Raise ex)
    end.
Proof.
  intros Hs Ht Hwp Hhb Hb He h t' b' w'.
  assert (Hrun : attack self target w = (w', Ok tt)).
  { apply (attack_run w self target s t wp hb b t' Hs Ht Hwp Hhb Hb).
    rewrite He. apply lookup_insert_eq. }
  unfold bind. rewrite Hrun.
  rewrite (draw_run w' hb b' t').
  - destruct (glyph_counts b') as [counts | ex]; [| reflexivity].
    unfold drawn. simpl stdout. rewrite <- !app_assoc. reflexivity.
  - simpl. apply lookup_insert_eq.
  - simpl. rewrite He. apply lookup_insert_eq.
Qed.

Lemma attack_then_draw_witness :
  stdout ((attack 1 2;; draw 2) scene.1).1 =
    [ "Aria attacks Goblin with Fists for 5 damage.";
      "Goblin's Health: 25/30";
      bar_line goblin_bar 17 3 (reset_code goblin_bar) ].
Proof.
  rewrite (attack_then_draw scene.1 1 2
             (Character.mk "Aria" 100 100 fists (Some fists) (Some 1%positive))
             (Character.mk "Goblin" 30 30 club None (Some 2%positive))
             (Weapon.mk "Fists" 5) 2
             (HealthBar.mk 2 20 30 30 true (esc +:+ "[91m")));
    try (vm_compute; reflexivity).
Defined.

(** ** Constructors *)

(** The colour lookup never raises, and never yields the empty string. *)
Lemma resolve_color_returns (color : string) :
  exists a code, resolve_color color = Ok (String a code).
Proof.
  rewrite resolve_color_spec.
  destruct (decide (color ∈ palette)) as [Hin | Hout].
  - palette_cases Hin ltac:(vm_compute; eauto).
  - vm_compute. eauto.
Qed.

(** X8: [HealthBar.__init__] on a character allocates one new bar whose
    [max_value] and [current_value] are the entity's [health_max] and
    [health] at that moment, with a non-empty colour code; it changes no
    character and no other bar. On anything else it raises [AttributeError]
    and allocates nothing. *)
Theorem HealthBar_init_snapshot w entity length is_colored (color : string) :
  match characters w !! entity with
  | None =>
      HealthBar_init entity length is_colored color w = (w, Raise AttributeError)
  | Some e =>
      exists hb code,
        bars w !! hb = None /\
        resolve_color color = Ok code /\
        code <> EmptyString /\
        HealthBar_init entity length is_colored color w =
          (mkWorld (weapons w) (characters w)
             (<[hb := HealthBar.mk entity length (Character.health_max e)
                        (Character.health e) is_colored code]> (bars w))
             (stdout w),
           Ok hb)
  end.
Proof.
  destruct (characters w !! entity) as [e |] eqn:He.
  - destruct (resolve_color_returns color) as (a & code & Hcol).
    exists (fresh (dom (bars w))), (String a code).
    split; [apply not_elem_of_dom, is_fresh |]. split; [exact Hcol |].
    split; [discriminate |].
    unfold HealthBar_init. rewrite (bind_get_character entity e) by exact He.
    rewrite Hcol. reflexivity.
  - unfold HealthBar_init. rewrite bind_get_character_None by exact He.
    reflexivity.
Qed.

Lemma Hero_init_world w name health :
  Hero_init name health w =
    (mkWorld (weapons w)
       (<[fresh (dom (characters w)) :=
            Character.mk name health health fists (Some fists)
              (Some (fresh (dom (bars w))))]> (characters w))
       (<[fresh (dom (bars w)) :=
            HealthBar.mk (fresh (dom (characters w))) 20 health health true
              (esc +:+ "[92m")]> (bars w))
       (stdout w),
     Ok (fresh (dom (characters w)))).
Proof.
  unfold Hero_init, Character_init.
  set (self := fresh (dom (characters w))).
  set (c0 := Character.mk name health health fists None None).
  unfold bind at 1. unfold new_character at 1. fold self.
  rewrite (bind_get_character self c0) by (simpl; apply lookup_insert_eq).
  rewrite bind_update_character. simpl.
  unfold bind at 1. unfold HealthBar_init.
  rewrite (bind_get_character self (Character.set_default_weapon fists c0))
    by (simpl; rewrite alter_insert_eq; apply lookup_insert_eq).
  replace (resolve_color "green") with (@Ok string (esc +:+ "[92m"))
    by (vm_compute; reflexivity).
  rewrite bind_lift_Ok. unfold new_bar. simpl.
  rewrite !alter_insert_eq. rewrite bind_update_character. simpl.
  rewrite alter_insert_eq. reflexivity.
Qed.

(** X9: [Hero.__init__] adds one character and one bar and changes nothing
    else. The hero holds [fists], also as [default_weapon]; its health is
    its [health_max]; its bar is green, 20 glyphs long, observes the hero
    and starts at the hero's health. *)
Theorem Hero_init_builds w name health :
  exists hero hb,
    characters w !! hero = None /\
    bars w !! hb = None /\
    Hero_init name health w =
      (mkWorld (weapons w)
         (<[hero := Character.mk name health health fists (Some fists) (Some hb)]>
            (characters w))
         (<[hb := HealthBar.mk hero 20 health health true (esc +:+ "[92m")]>
            (bars w))
         (stdout w),
       Ok hero).
Proof.
  exists (fresh (dom (characters w))), (fresh (dom (bars w))).
  split; [apply not_elem_of_dom, is_fresh |].
  split; [apply not_elem_of_dom, is_fresh |].
  apply Hero_init_world.
Qed.

(** X10: [Enemy.__init__] adds one character and one bar and changes
    nothing else. The enemy holds the weapon it was given and has no
    [default_weapon]; its bar is red, 20 glyphs long, observes the enemy and
    starts at the enemy's health. *)
Theorem Enemy_init_builds w name health weapon :
  exists enemy hb,
    characters w !! enemy = None /\
    bars w !! hb = None /\
    Enemy_init name health weapon w =
      (mkWorld (weapons w)
         (<[enemy := Character.mk name health health weapon None (Some hb)]>
            (characters w))
         (<[hb := HealthBar.mk enemy 20 health health true (esc +:+ "[91m")]>
            (bars w))
         (stdout w),
       Ok enemy).
Proof.
  exists (fresh (dom (characters w))), (fresh (dom (bars w))).
  split; [apply not_elem_of_dom, is_fresh |].
  split; [apply not_elem_of_dom, is_fresh |].
  unfold Enemy_init, Character_init.
  set (self := fresh (dom (characters w))).
  set (c0 := Character.mk name health health fists None None).
  unfold bind at 1. unfold new_character at 1. fold self.
  rewrite bind_update_character. simpl.
  unfold bind at 1. unfold HealthBar_init.
  rewrite (bind_get_character self (Character.set_weapon weapon c0))
    by (simpl; rewrite alter_insert_eq; apply lookup_insert_eq).
  replace (resolve_color "red") with (@Ok string (esc +:+ "[91m"))
    by (vm_compute; reflexivity).
  rewrite bind_lift_Ok. unfold new_bar. simpl.
  rewrite !alter_insert_eq. rewrite bind_update_character. simpl.
  rewrite alter_insert_eq. reflexivity.
Qed.

(** ** [equip] and [drop]: failures and the weapon that strikes *)

(** X11: [equip] with an object that has no [name] attribute, such as
    [None] (a reference outside the weapon store), raises [AttributeError]
    after it has replaced [hero.weapon], and prints nothing. A [drop] in
    that state raises too and restores nothing. An object of another class
    that does have a [name] is not covered. *)
Theorem equip_non_weapon w hero wp c :
  characters w !! hero = Some c ->
  weapons w !! wp = None ->
  let w' := mkWorld (weapons w)
              (<[hero := Character.set_weapon wp c]> (characters w))
              (bars w) (stdout w) in
  equip hero wp w = (w', Raise AttributeError) /\
  drop hero w' = (w', Raise AttributeError).
Proof.
  intros Hc Hwp w'. split.
  - unfold equip. rewrite bind_update_character.
    rewrite (bind_get_character hero (Character.set_weapon wp c))
      by (simpl; rewrite lookup_alter_eq, Hc; reflexivity).
    rewrite bind_get_weapon_obj_None by exact Hwp.
    unfold w'. rewrite (alter_alt_Some _ (characters w) hero c Hc). reflexivity.
  - unfold drop.
    rewrite (bind_get_character hero (Character.set_weapon wp c))
      by (simpl; apply lookup_insert_eq).
    rewrite bind_get_weapon_obj_None by exact Hwp. reflexivity.
Qed.

Lemma equip_non_weapon_witness :
  (equip 1 9 scene.1).2 = Raise AttributeError /\
  Character.weapon <$> characters (equip 1 9 scene.1).1 !! 1%positive
    = Some 9%positive /\
  (equip 1 9;; drop 1) scene.1 = equip 1 9 scene.1.
Proof.
  destruct (equip_non_weapon scene.1 1 9
              (Character.mk "Aria" 100 100 fists (Some fists) (Some 1%positive)))
    as [Hequip Hdrop]; try (vm_compute; reflexivity).
  unfold bind. rewrite Hequip. simpl. rewrite lookup_insert_eq.
  repeat split.
Defined.

(** X12: [drop] on a character without a [default_weapon] (an enemy, a
    plain character) raises [AttributeError] and changes nothing. *)
Theorem drop_without_default_weapon w self c :
  characters w !! self = Some c ->
  Character.default_weapon c = None ->
  drop self w = (w, Raise AttributeError).
Proof.
  intros Hc Hd. unfold drop. rewrite (bind_get_character self c) by exact Hc.
  destruct (weapons w !! Character.weapon c) as [x |] eqn:Hx.
  - rewrite (bind_get_weapon_obj _ x) by exact Hx.
    rewrite (bind_get_character self c) by exact Hc.
    rewrite Hd. reflexivity.
  - rewrite bind_get_weapon_obj_None by exact Hx. reflexivity.
Qed.

Lemma drop_without_default_weapon_witness :
  drop 2 scene.1 = (scene.1, Raise AttributeError).
Proof.
  apply (drop_without_default_weapon scene.1 2
           (Character.mk "Goblin" 30 30 club None (Some 2%positive)));
    vm_compute; reflexivity.
Defined.

Lemma equip_world w hero wp c x :
  characters w !! hero = Some c ->
  weapons w !! wp = Some x ->
  equip hero wp w =
    (mkWorld (weapons w) (<[hero := Character.set_weapon wp c]> (characters w))
       (bars w)
       (stdout w ++ [Character.name c +:+ " equipped " +:+ Weapon.name x +:+ "!"]),
     Ok tt).
Proof.
  intros Hc Hx. unfold equip. rewrite bind_update_character.
  rewrite (bind_get_character hero (Character.set_weapon wp c))
    by (simpl; rewrite lookup_alter_eq, Hc; reflexivity).
  rewrite (bind_get_weapon_obj wp x) by exact Hx.
  unfold print. simpl.
  rewrite (alter_alt_Some _ (characters w) hero c Hc). reflexivity.
Qed.

Lemma drop_world w hero c x d :
  characters w !! hero = Some c ->
  weapons w !! Character.weapon c = Some x ->
  Character.default_weapon c = Some d ->
  drop hero w =
    (mkWorld (weapons w) (<[hero := Character.set_weapon d c]> (characters w))
       (bars w)
       (stdout w ++ [Character.name c +:+ " dropped " +:+ Weapon.name x +:+ "."]),
     Ok tt).
Proof.
  intros Hc Hx Hd. unfold drop.
  rewrite (bind_get_character hero c) by exact Hc.
  rewrite (bind_get_weapon_obj _ x) by exact Hx.
  rewrite (bind_get_character hero c) by exact Hc.
  rewrite Hd. unfold get_attr. simpl from_option. rewrite bind_lift_Ok.
  rewrite bind_update_character.
  rewrite (bind_get_character hero (Character.set_weapon d c))
    by (simpl; rewrite lookup_alter_eq, Hc; reflexivity).
  unfold print. simpl.
  rewrite (alter_alt_Some _ (characters w) hero c Hc). reflexivity.
Qed.

(** An attack right after the attacker's weapon has been replaced by [wp']. *)
Lemma attack_after_rearming w hero target c t wp' x' hb b out :
  characters w !! hero = Some c ->
  characters w !! target = Some t ->
  weapons w !! wp' = Some x' ->
  Character.health_bar t = Some hb ->
  bars w !! hb = Some b ->
  HealthBar.entity b = target ->
  exists w' t',
    attack hero target
      (mkWorld (weapons w) (<[hero := Character.set_weapon wp' c]> (characters w))
         (bars w) out) = (w', Ok tt) /\
    characters w' !! target = Some t' /\
    Character.health t' = Z.max (Character.health t - Weapon.damage x') 0 /\
    stdout w' =
      out ++ [Character.name c +:+ " attacks " +:+ Character.name t +:+ " with "
                +:+ Weapon.name x' +:+ " for " +:+ pretty (Weapon.damage x')
                +:+ " damage."].
Proof.
  intros Hc Ht Hx' Hhb Hb He.
  set (w1 := mkWorld (weapons w)
               (<[hero := Character.set_weapon wp' c]> (characters w)) (bars w) out).
  assert (Ht1 : exists t1, characters w1 !! target = Some t1 /\
                  Character.health t1 = Character.health t /\
                  Character.health_bar t1 = Some hb /\
                  Character.name t1 = Character.name t).
  { simpl. destruct (decide (hero = target)) as [<- | Hne].
    - exists (Character.set_weapon wp' c). rewrite lookup_insert_eq.
      rewrite Hc in Ht. inversion Ht; subst t. repeat split. exact Hhb.
    - exists t. rewrite lookup_insert_ne by exact Hne. repeat split; assumption. }
  destruct Ht1 as (t1 & Ht1 & Hh1 & Hhb1 & Hn1).
  eexists _, _. split.
  - eapply (attack_run w1 hero target (Character.set_weapon wp' c) t1 x' hb b);
      try eassumption.
    + simpl. apply lookup_insert_eq.
    + rewrite He. apply lookup_insert_eq.
  - simpl. rewrite lookup_insert_eq. split; [reflexivity |]. simpl.
    rewrite Hh1. split; [reflexivity |].
    unfold attack_line. simpl. rewrite Hn1. reflexivity.
Qed.

(** X13: an attack right after [equip] strikes with the weapon just
    equipped: the target loses that weapon's damage, and both lines name
    it. *)
Theorem equip_then_attack w hero target wp c t x hb b :
  characters w !! hero = Some c ->
  characters w !! target = Some t ->
  weapons w !! wp = Some x ->
  Character.health_bar t = Some hb ->
  bars w !! hb = Some b ->
  HealthBar.entity b = target ->
  exists w' t',
    (equip hero wp;; attack hero target) w = (w', Ok tt) /\
    characters w' !! target = Some t' /\
    Character.health t' = Z.max (Character.health t - Weapon.damage x) 0 /\
    stdout w' =
      stdout w ++
        [Character.name c +:+ " equipped " +:+ Weapon.name x +:+ "!";
         Character.name c +:+ " attacks " +:+ Character.name t +:+ " with "
           +:+ Weapon.name x +:+ " for " +:+ pretty (Weapon.damage x)
           +:+ " damage."].
Proof.
  intros Hc Ht Hx Hhb Hb He.
  destruct (attack_after_rearming w hero target c t wp x hb b
              (stdout w ++ [Character.name c +:+ " equipped " +:+ Weapon.name x +:+ "!"])
              Hc Ht Hx Hhb Hb He) as (w' & t' & Hrun & Ht' & Hh & Hout).
  exists w', t'. unfold bind. rewrite (equip_world w hero wp c x Hc Hx).
  split; [exact Hrun |]. split; [exact Ht' |]. split; [exact Hh |].
  rewrite Hout, <- app_assoc. reflexivity.
Qed.

Lemma equip_then_attack_witness :
  exists w' t',
    (equip 1 sword;; attack 1 2) scene.1 = (w', Ok tt) /\
    characters w' !! 2%positive = Some t' /\
    Character.health t' = Z.max (30 - 20) 0 /\
    stdout w' =
      stdout scene.1 ++
        ["Aria equipped Sword!"; "Aria attacks Goblin with Sword for 20 damage."].
Proof.
  apply (equip_then_attack scene.1 1 2 sword
           (Character.mk "Aria" 100 100 fists (Some fists) (Some 1%positive))
           (Character.mk "Goblin" 30 30 club None (Some 2%positive))
           (Weapon.mk "Sword" 20) 2
           (HealthBar.mk 2 20 30 30 true (esc +:+ "[91m")));
    vm_compute; reflexivity.
Defined.

(** X14: an attack right after [drop] strikes with the default weapon,
    whatever was held before; [drop] prints the name of the weapon that was
    held. *)
Theorem drop_then_attack w hero target c t x d xd hb b :
  characters w !! hero = Some c ->
  characters w !! target = Some t ->
  weapons w !! Character.weapon c = Some x ->
  Character.default_weapon c = Some d ->
  weapons w !! d = Some xd ->
  Character.health_bar t = Some hb ->
  bars w !! hb = Some b ->
  HealthBar.entity b = target ->
  exists w' t',
    (drop hero;; attack hero target) w = (w', Ok tt) /\
    characters w' !! target = Some t' /\
    Character.health t' = Z.max (Character.health t - Weapon.damage xd) 0 /\
    stdout w' =
      stdout w ++
        [Character.name c +:+ " dropped " +:+ Weapon.name x +:+ ".";
         Character.name c +:+ " attacks " +:+ Character.name t +:+ " with "
           +:+ Weapon.name xd +:+ " for " +:+ pretty (Weapon.damage xd)
           +:+ " damage."].
Proof.
  intros Hc Ht Hx Hd Hxd Hhb Hb He.
  destruct (attack_after_rearming w hero target c t d xd hb b
              (stdout w ++ [Character.name c +:+ " dropped " +:+ Weapon.name x +:+ "."])
              Hc Ht Hxd Hhb Hb He) as (w' & t' & Hrun & Ht' & Hh & Hout).
  exists w', t'. unfold bind. rewrite (drop_world w hero c x d Hc Hx Hd).
  split; [exact Hrun |]. split; [exact Ht' |]. split; [exact Hh |].
  rewrite Hout, <- app_assoc. reflexivity.
Qed.

Lemma drop_then_attack_witness :
  exists w' t',
    (drop 1;; attack 1 2) (equip 1 sword scene.1).1 = (w', Ok tt) /\
    characters w' !! 2%positive = Some t' /\
    Character.health t' = Z.max (30 - 5) 0 /\
    stdout w' =
      stdout (equip 1 sword scene.1).1 ++
        ["Aria dropped Sword."; "Aria attacks Goblin with Fists for 5 damage."].
Proof.
  apply (drop_then_attack (equip 1 sword scene.1).1 1 2
           (Character.mk "Aria" 100 100 sword (Some fists) (Some 1%positive))
           (Character.mk "Goblin" 30 30 club None (Some 2%positive))
           (Weapon.mk "Sword" 20) fists (Weapon.mk "Fists" 5) 2
           (HealthBar.mk 2 20 30 30 true (esc +:+ "[91m")));
    vm_compute; reflexivity.
Defined.

(** ** From construction to the drawn bar *)

(** X15: the bar of a hero just built with positive health draws full:
    twenty filled glyphs between the green code and the reset. *)
Theorem fresh_hero_draws_full_bar w name health :
  0 < health ->
  exists w1 hero hb,
    Hero_init name health w = (w1, Ok hero) /\
    Character.health_bar <$> characters w1 !! hero = Some (Some hb) /\
    draw hb w1 =
      (mkWorld (weapons w1) (characters w1) (bars w1)
         (stdout w ++
            [name +:+ "'s Health: " +:+ pretty health +:+ "/" +:+ pretty health;
             "│" +:+ esc +:+ "[92m" +:+ "████████████████████" +:+ esc
               +:+ "[0m" +:+ "│"]),
       Ok tt).
Proof.
  intros Hh. eexists _, _, _. split; [apply Hero_init_world |].
  simpl. rewrite lookup_insert_eq. split; [reflexivity |].
  set (hero := fresh (dom (characters w))).
  set (hb := fresh (dom (bars w))).
  set (b := HealthBar.mk hero 20 health health true (esc +:+ "[92m")).
  set (c := Character.mk name health health fists (Some fists) (Some hb)).
  rewrite (draw_run _ hb b c)
    by (simpl; apply lookup_insert_eq).
  rewrite (glyph_counts_full b) by (simpl; lia).
  reflexivity.
Qed.

Lemma fresh_hero_draws_full_bar_witness :
  exists w1 hero hb,
    Hero_init "Aria" 100 armoury = (w1, Ok hero) /\
    Character.health_bar <$> characters w1 !! hero = Some (Some hb) /\
    draw hb w1 =
      (mkWorld (weapons w1) (characters w1) (bars w1)
         (stdout armoury ++
            ["Aria's Health: 100/100";
             "│" +:+ esc +:+ "[92m" +:+ "████████████████████" +:+ esc
               +:+ "[0m" +:+ "│"]),
       Ok tt).
Proof.
  apply (fresh_hero_draws_full_bar armoury "Aria" 100). lia.
Defined.

(** X16: after an attack whose damage is at least the target's health,
    the target is at 0 and its bar draws empty: [length] lost glyphs and no
    filled one. *)
Theorem lethal_attack_draws_empty_bar w self target s t wp hb b :
  characters w !! self = Some s ->
  characters w !! target = Some t ->
  weapons w !! Character.weapon s = Some wp ->
  Character.health_bar t = Some hb ->
  bars w !! hb = Some b ->
  HealthBar.entity b = target ->
  Character.health t <= Weapon.damage wp ->
  0 < HealthBar.max_value b ->
  0 < HealthBar.length b <= 2 ^ 53 ->
  exists w',
    (attack self target;; draw hb) w = (w', Ok tt) /\
    Character.health <$> characters w' !! target = Some 0 /\
    stdout w' =
      stdout w ++
        [attack_line s t wp;
         Character.name t +:+ "'s Health: 0/" +:+ pretty (Character.health_max t);
         barrier
           +:+ (if HealthBar.is_colored b then HealthBar.color b else EmptyString)
           +:+ repeated (HealthBar.length b) symbol_lost
           +:+ (if HealthBar.is_colored b then esc +:+ "[0m" else EmptyString)
           +:+ barrier].
Proof.
  intros Hs Ht Hwp Hhb Hb He Hd Hmax Hlen.
  set (t' := Character.set_health 0 t).
  set (b' := HealthBar.set_current_value 0 b).
  set (w1 := mkWorld (weapons w) (<[target := t']> (characters w))
               (<[hb := b']> (bars w)) (stdout w ++ [attack_line s t wp])).
  assert (Hrun : attack self target w = (w1, Ok tt)).
  { rewrite (attack_run w self target s t wp hb b
               (Character.set_health
                  (Z.max (Character.health t - Weapon.damage wp) 0) t)
               Hs Ht Hwp Hhb Hb)
      by (rewrite He; apply lookup_insert_eq).
    unfold w1, t', b'. rewrite Z.max_r by lia. reflexivity. }
  unfold bind. rewrite Hrun.
  rewrite (draw_run w1 hb b' t')
    by (simpl; rewrite ?He; apply lookup_insert_eq).
  rewrite (glyph_counts_empty b') by (simpl; assumption || reflexivity).
  cbn [fst snd b' HealthBar.length HealthBar.set_current_value].
  rewrite (index_sized_true 0) by lia.
  rewrite (index_sized_true (HealthBar.length b)) by lia.
  cbn [andb].
  eexists. split; [reflexivity |]. simpl. rewrite lookup_insert_eq.
  split; [reflexivity |]. rewrite <- app_assoc.
  unfold drawn, health_line, bar_line, reset_code.
  cbn [fst snd Character.health Character.name Character.health_max t'
       HealthBar.is_colored HealthBar.color HealthBar.length b'
       Character.set_health HealthBar.set_current_value].
  replace (pretty 0) with "0" by (vm_compute; reflexivity).
  destruct (HealthBar.is_colored b); reflexivity.
Qed.

Lemma lethal_attack_draws_empty_bar_witness :
  exists w',
    (attack 2 1;; draw 1) (duel axe) = (w', Ok tt) /\
    Character.health <$> characters w' !! 1%positive = Some 0 /\
    stdout w' =
      stdout (duel axe) ++
        ["Goblin attacks Aria with Axe for 15 damage.";
         "Aria's Health: 0/10";
         "│" +:+ esc +:+ "[92m" +:+ "░░░░░░░░░░░░░░░░░░░░" +:+ esc +:+ "[0m"
           +:+ "│"].
Proof.
  apply (lethal_attack_draws_empty_bar (duel axe) 2 1
           (Character.mk "Goblin" 30 30 axe None (Some 2%positive))
           (Character.mk "Aria" 10 10 fists (Some fists) (Some 1%positive))
           (Weapon.mk "Axe" 15) 1
           (HealthBar.mk 1 20 10 10 true (esc +:+ "[92m")));
    try (vm_compute; reflexivity);
    cbn [Character.health Weapon.damage HealthBar.max_value HealthBar.length];
    lia.
Defined.

(** X17: on a bar of at most [2^53] glyphs with
    [0 <= current_value <= max_value] and [max_value > 0], both glyph counts
    lie between 0 and [length], so the bar printed is exactly [length]
    glyphs wide. *)
Theorem glyph_counts_in_range b :
  0 <= HealthBar.current_value b <= HealthBar.max_value b ->
  0 < HealthBar.max_value b ->
  0 < HealthBar.length b <= 2 ^ 53 ->
  exists remaining_bars lost_bars,
    glyph_counts b = Ok (remaining_bars, lost_bars) /\
    0 <= remaining_bars <= HealthBar.length b /\
    0 <= lost_bars <= HealthBar.length b /\
    (Z.to_nat remaining_bars + Z.to_nat lost_bars
       = Z.to_nat (HealthBar.length b))%nat.
Proof.
  intros Hcv Hmv Hlen.
  destruct (glyph_counts_within b Hcv Hmv Hlen) as (r & Hc & Hr).
  exists r, (HealthBar.length b - r). split; [exact Hc |]. lia.
Qed.

Lemma glyph_counts_in_range_witness :
  exists remaining_bars lost_bars,
    glyph_counts goblin_bar = Ok (remaining_bars, lost_bars) /\
    0 <= remaining_bars <= 20 /\
    0 <= lost_bars <= 20 /\
    (Z.to_nat remaining_bars + Z.to_nat lost_bars = Z.to_nat 20)%nat.
Proof.
  apply (glyph_counts_in_range goblin_bar);
    unfold goblin_bar;
    cbn [HealthBar.current_value HealthBar.max_value HealthBar.length]; lia.
Defined.
